(** * Facility status state machine of the smart-toilet hygiene services

    A shallow embedding of the three Flask services of the repository:

    - [Enhanced]: [enhanced_auth_app.py], the single-process service with the
      background simulator, the direct status update, start-cleaning with
      its delayed completion threads, the task list and the update feed;
    - [Staff]: [staff_app.py], the staff-facing authority (start / complete
      cleaning, urgency score, windowed update feed);
    - [Public]: [public_app.py], the public read replica with its webhook.

    Conventions of the embedding.

    - A [datetime] is a number of microseconds (the resolution of Python's
      [datetime]); [datetime.now()] is read once per handler call and passed
      in as [now].
    - [uuid.uuid4()] is passed in as [uuid4].
    - The [random] module is a cursor over a stream of raw words; [random()],
      [randint] and [choice] consume one word each.
    - Python dictionaries with a fixed set of keys are records whose fields
      carry the key names; a key that may be absent is an [option].  The
      keys [id], [type] and [icon] occur both in toilets and in updates, so
      the update record spells them [update_id], [update_type],
      [update_icon].
    - A handler returns the new global state with the HTTP response. *)

From Stdlib Require Import ZArith QArith Lia.
From stdpp Require Import base strings list sorting gmap.

Open Scope string_scope.
Open Scope Z_scope.

(** ** Time *)

Definition datetime : Type := Z.

Definition microseconds_per_minute : Z := 60 * 1000000.
Definition microseconds_per_hour : Z := 3600 * 1000000.

(** [(a - b).total_seconds() / 3600 > h] *)
Definition hours_gt (elapsed : Z) (h : Z) : bool :=
  h * microseconds_per_hour <? elapsed.

(** [(a - b).total_seconds() / 60 <= m] *)
Definition minutes_le (elapsed : Z) (m : Z) : bool :=
  elapsed <=? m * microseconds_per_minute.

(** [(a - b).total_seconds() / 60 < m] *)
Definition minutes_lt (elapsed : Z) (m : Z) : bool :=
  elapsed <? m * microseconds_per_minute.

(** ** Python helpers *)

(** [l[-n:]] for a positive literal [n]. *)
Definition lastn {A : Type} (n : nat) (l : list A) : list A :=
  drop (length l - n) l.

(** [int(x)] on a float: truncation towards zero. *)
Definition py_int (x : Q) : Z := Z.quot (Qnum x) (Zpos (Qden x)).

Definition Qltb (x y : Q) : bool := negb (Qle_bool y x).

(** [x or y] on an optional integer: [None] and [0] are falsy. *)
Definition py_or (x : option Z) (y : Z) : Z :=
  match x with
  | Some v => if v =? 0 then y else v
  | None => y
  end.

(** ** The random module *)

Record rng : Type := Rng { stream : nat -> Z; cursor : nat }.

Definition Rand (A : Type) : Type := rng -> A * rng.

Definition rand_ret {A : Type} (x : A) : Rand A := fun g => (x, g).

Definition rand_bind {A B : Type} (m : Rand A) (k : A -> Rand B) : Rand B :=
  fun g => k (m g).1 (m g).2.

Declare Scope rand_scope.
Delimit Scope rand_scope with rand.
Notation "x <- m ;; k" := (rand_bind m (fun x => k))
  (at level 100, m at next level, right associativity) : rand_scope.

Definition next_word : Rand Z :=
  fun g => (stream g (cursor g), Rng (stream g) (S (cursor g))).

(** [random.random()]: a multiple of 2^-53 in [0, 1). *)
Definition random : Rand Q :=
  (w <- next_word ;; rand_ret (Qmake (w mod 2 ^ 53) (2 ^ 53)))%rand.

(** [random.randint(a, b)] *)
Definition randint (a b : Z) : Rand Z :=
  (w <- next_word ;; rand_ret (a + w mod (b - a + 1)))%rand.

(** The index drawn by [random.choice] on a sequence of length [n]. *)
Definition choice_index (n : nat) : Rand nat :=
  (w <- next_word ;; rand_ret (Z.to_nat (w mod Z.of_nat n)))%rand.

(** The result of a handler: HTTP status code and the message (or error)
    of the JSON body. *)
Record response : Type := Response { code : Z; message : string }.

Inductive priority : Type := high | medium | low.

Inductive progress : Type := pending | in_progress | completed.

Definition priority_eqb (p q : priority) : bool :=
  match p, q with
  | high, high | medium, medium | low, low => true
  | _, _ => false
  end.

Definition option_string_eqb (x y : option string) : bool :=
  match x, y with
  | Some a, Some b => String.eqb a b
  | None, None => true
  | _, _ => false
  end.

(** [x in l] for a list of string literals. *)
Definition str_in (x : string) (l : list string) : bool :=
  existsb (String.eqb x) l.

(** ** [list.sort(key=...)]

    Python's sort is stable and ascending; with a key made of two integers
    the keys compare lexicographically.  A stable sort has one possible
    result, here computed by insertion from the right. *)

Section Sort.
Context {A : Type} (key : A -> nat * nat).

Definition key_le (a b : nat * nat) : bool :=
  (a.1 <? b.1)%nat || ((a.1 =? b.1)%nat && (a.2 <=? b.2)%nat).

Fixpoint insert_by_key (x : A) (l : list A) : list A :=
  match l with
  | [] => [x]
  | y :: l' =>
      if key_le (key x) (key y) then x :: y :: l'
      else y :: insert_by_key x l'
  end.

Definition sort_by_key (l : list A) : list A :=
  foldr insert_by_key [] l.

(** [x] may come before [y] in the sorted list. *)
Definition key_ordered (x y : A) : Prop := key_le (key x) (key y) = true.

(** [list.sort(key=..., reverse=True)]: the list is reversed, sorted and
    reversed again, so that elements of equal key keep their order. *)
Definition sort_by_key_reverse (l : list A) : list A :=
  reverse (sort_by_key (reverse l)).

(** [x] may come before [y] in the list sorted with [reverse=True]. *)
Definition key_ordered_reverse (x y : A) : Prop :=
  key_le (key y) (key x) = true.
End Sort.

(** * The enhanced service ([enhanced_auth_app.py]) *)

Module Enhanced.

(** An entry of [toilets_data].  Coordinates, reviews and path points play
    no part in the state machine and are left out. *)
Record toilet : Type := Toilet {
  id : string;
  name : string;
  address : string;
  type : string;
  hygiene_score : Z;
  status : string;
  last_cleaned : datetime;
  next_scheduled : datetime;
  cleaner_assigned : option string;
  occupancy : string;
  water_available : bool;
  soap_available : bool;
  paper_available : bool;
  icon : string;
  last_updated : option datetime
}.

(** An entry of [real_time_updates]. *)
Record update : Type := Update {
  update_id : string;
  toilet_id : string;
  toilet_name : string;
  previous_status : string;
  new_status : string;
  new_score : Z;
  cleaner_name : option string;
  cleaner_email : option string;
  timestamp : datetime;
  update_type : string;
  update_icon : option string
}.

(** The Flask session: each key may be absent ([session.get]). *)
Record session : Type := Session {
  user_email : option string;
  user_role : option string;
  user_name : option string
}.

(** The closure of a sleeping [complete_cleaning] thread: the toilet object
    it captured (its position in [toilets_data], which is never reordered)
    and the captured request and session values. *)
Record completion : Type := Completion {
  c_toilet : nat;
  c_toilet_id : string;
  c_user_name : option string;
  c_user_email : option string
}.

(** The module globals together with the started threads that have not
    woken up yet. *)
Record state : Type := State {
  toilets_data : list toilet;
  real_time_updates : list update;
  completion_threads : list completion
}.

(** In-place assignments [toilet[key] = v]. *)
Definition set_hygiene_score (v : Z) (t : toilet) : toilet :=
  Toilet (id t) (name t) (address t) (type t) v (status t) (last_cleaned t)
    (next_scheduled t) (cleaner_assigned t) (occupancy t) (water_available t)
    (soap_available t) (paper_available t) (icon t) (last_updated t).

Definition set_status (v : string) (t : toilet) : toilet :=
  Toilet (id t) (name t) (address t) (type t) (hygiene_score t) v
    (last_cleaned t) (next_scheduled t) (cleaner_assigned t) (occupancy t)
    (water_available t) (soap_available t) (paper_available t) (icon t)
    (last_updated t).

Definition set_last_cleaned (v : datetime) (t : toilet) : toilet :=
  Toilet (id t) (name t) (address t) (type t) (hygiene_score t) (status t) v
    (next_scheduled t) (cleaner_assigned t) (occupancy t) (water_available t)
    (soap_available t) (paper_available t) (icon t) (last_updated t).

Definition set_last_updated (v : datetime) (t : toilet) : toilet :=
  Toilet (id t) (name t) (address t) (type t) (hygiene_score t) (status t)
    (last_cleaned t) (next_scheduled t) (cleaner_assigned t) (occupancy t)
    (water_available t) (soap_available t) (paper_available t) (icon t)
    (Some v).

Definition set_cleaner_assigned (v : option string) (t : toilet) : toilet :=
  Toilet (id t) (name t) (address t) (type t) (hygiene_score t) (status t)
    (last_cleaned t) (next_scheduled t) v (occupancy t) (water_available t)
    (soap_available t) (paper_available t) (icon t) (last_updated t).

Definition set_water_available (v : bool) (t : toilet) : toilet :=
  Toilet (id t) (name t) (address t) (type t) (hygiene_score t) (status t)
    (last_cleaned t) (next_scheduled t) (cleaner_assigned t) (occupancy t) v
    (soap_available t) (paper_available t) (icon t) (last_updated t).

Definition set_soap_available (v : bool) (t : toilet) : toilet :=
  Toilet (id t) (name t) (address t) (type t) (hygiene_score t) (status t)
    (last_cleaned t) (next_scheduled t) (cleaner_assigned t) (occupancy t)
    (water_available t) v (paper_available t) (icon t) (last_updated t).

Definition set_paper_available (v : bool) (t : toilet) : toilet :=
  Toilet (id t) (name t) (address t) (type t) (hygiene_score t) (status t)
    (last_cleaned t) (next_scheduled t) (cleaner_assigned t) (occupancy t)
    (water_available t) (soap_available t) v (icon t) (last_updated t).

(** [next((t for t in toilets_data if t['id'] == toilet_id), None)]: the
    first matching entry, with its position. *)
Definition find_toilet (toilet_id : string) (l : list toilet)
  : option (nat * toilet) :=
  list_find (fun t => id t = toilet_id) l.

(** *** The simulator *)

Definition degradation_rate (ty : string) : Q :=
  if String.eqb ty "gas_station" then 0.25
  else if String.eqb ty "university" then 0.20
  else if String.eqb ty "metro" then 0.18
  else if String.eqb ty "mall" then 0.15
  else if String.eqb ty "public" then 0.12
  else if String.eqb ty "hospital" then 0.08
  else 0.15.

Definition occupancy_multiplier (o : string) : Q :=
  if String.eqb o "high" then 1.5
  else if String.eqb o "medium" then 1.0
  else if String.eqb o "low" then 0.7
  else 1.0.

(** The update notification built by the simulator. *)
Definition status_update (uuid4 : string) (now : datetime) (t : toilet)
    (previous new kind : string) : update :=
  Update uuid4 (id t) (name t) previous new (hygiene_score t) None None now
    kind (Some (icon t)).

(** The body of one iteration of [simulate_real_time_updates] on the chosen
    toilet: the toilet after the iteration and the update it appended, if
    any.  Probabilities are exact rationals; the score drop
    [int(randint(a, b) * occupancy_multiplier)] is the truncated product
    (the binary64 product truncates to the same integer for every value the
    two [randint] ranges and the three multipliers allow). *)
Definition simulate_toilet (uuid4 : string) (now : datetime) (toilet : toilet)
  : Rand (Enhanced.toilet * option update) :=
  let multiplier := occupancy_multiplier (occupancy toilet) in
  let effective_degradation :=
    (degradation_rate (type toilet) * multiplier)%Q in
  if String.eqb (status toilet) "Clean" then
    (u <- random ;;
     if Qltb u effective_degradation then
       k <- randint 8 20 ;;
       let score_drop := (inject_Z k * multiplier)%Q in
       let toilet :=
         set_hygiene_score
           (Z.max 50 (hygiene_score toilet - py_int score_drop)) toilet in
       let toilet := set_status "Moderate" toilet in
       let toilet := set_last_updated now toilet in
       u1 <- random ;;
       let toilet :=
         if Qltb u1 0.3 then set_soap_available false toilet else toilet in
       u2 <- random ;;
       let toilet :=
         if Qltb u2 0.2 then set_paper_available false toilet else toilet in
       rand_ret
         (toilet,
          Some (status_update uuid4 now toilet "Clean" "Moderate"
                  "status_change"))
     else rand_ret (toilet, None))%rand
  else if String.eqb (status toilet) "Moderate" then
    (u <- random ;;
     if Qltb u (effective_degradation * 1.2)%Q then
       v <- random ;;
       if Qltb v 0.4 then
         score_increase <- randint 25 45 ;;
         let toilet :=
           set_hygiene_score
             (Z.min 95 (hygiene_score toilet + score_increase)) toilet in
         let toilet := set_status "Clean" toilet in
         let toilet := set_last_cleaned now toilet in
         let toilet := set_last_updated now toilet in
         let toilet := set_water_available true toilet in
         let toilet := set_soap_available true toilet in
         let toilet := set_paper_available true toilet in
         rand_ret
           (toilet,
            Some (status_update uuid4 now toilet "Moderate" "Clean"
                    "cleaned"))
       else
         k <- randint 15 35 ;;
         let score_drop := (inject_Z k * multiplier)%Q in
         let toilet :=
           set_hygiene_score
             (Z.max 10 (hygiene_score toilet - py_int score_drop)) toilet in
         let toilet := set_status "Dirty" toilet in
         let toilet := set_last_updated now toilet in
         u1 <- random ;;
         let toilet :=
           if Qltb u1 0.5 then set_water_available false toilet else toilet in
         let toilet := set_soap_available false toilet in
         u2 <- random ;;
         let toilet :=
           if Qltb u2 0.4 then set_paper_available false toilet else toilet in
         rand_ret
           (toilet,
            Some (status_update uuid4 now toilet "Moderate" "Dirty"
                    "status_change"))
     else rand_ret (toilet, None))%rand
  else if String.eqb (status toilet) "Dirty" then
    (u <- random ;;
     if Qltb u 0.08 then
       v <- random ;;
       if Qltb v 0.7 then
         k <- randint 15 30 ;;
         let toilet :=
           set_hygiene_score (Z.min 60 (hygiene_score toilet + k)) toilet in
         let toilet := set_status "Moderate" toilet in
         let toilet := set_last_updated now toilet in
         let toilet := set_water_available true toilet in
         u1 <- random ;;
         let toilet :=
           if Qltb u1 0.6 then set_soap_available true toilet else toilet in
         rand_ret
           (toilet,
            Some (status_update uuid4 now toilet "Dirty" "Moderate"
                    "status_change"))
       else
         k <- randint 30 50 ;;
         let toilet :=
           set_hygiene_score (Z.min 90 (hygiene_score toilet + k)) toilet in
         let toilet := set_status "Clean" toilet in
         let toilet := set_last_cleaned now toilet in
         let toilet := set_last_updated now toilet in
         let toilet := set_water_available true toilet in
         let toilet := set_soap_available true toilet in
         let toilet := set_paper_available true toilet in
         rand_ret
           (toilet,
            Some (status_update uuid4 now toilet "Dirty" "Clean" "cleaned"))
     else rand_ret (toilet, None))%rand
  else rand_ret (toilet, None).

(** One iteration of the [while True] loop of [simulate_real_time_updates]
    (after its [time.sleep(8)]).  [random.choice] on an empty list raises
    and ends the thread: the globals stay as they are. *)
Definition simulate_real_time_updates (uuid4 : string) (now : datetime)
    (s : state) : Rand state :=
  (i <- choice_index (length (toilets_data s)) ;;
   match toilets_data s !! i with
   | None => rand_ret s
   | Some toilet =>
       r <- simulate_toilet uuid4 now toilet ;;
       let updates :=
         (real_time_updates s ++ option_list (snd r))%list in
       let updates :=
         if (50 <? length updates)%nat then lastn 50 updates else updates in
       rand_ret
         (State (<[i := fst r]> (toilets_data s)) updates
            (completion_threads s))
   end)%rand.

(** *** Direct status update *)

(** The JSON body of an update-status request: [data.get('status')] and
    [data.get('hygiene_score')], the latter an integer when present. *)
Record status_request : Type := StatusRequest {
  req_status : option string;
  req_hygiene_score : option Z
}.

Definition role_in (sess : session) (roles : list string) : bool :=
  match user_role sess with
  | Some r => str_in r roles
  | None => false
  end.

Definition update_toilet_status (uuid4 : string) (now : datetime)
    (sess : session) (toilet_id : string) (data : status_request)
    (s : state) : state * response :=
  match user_email sess with
  | None => (s, Response 401 "Authentication required")
  | Some _ =>
  if negb (role_in sess ["cleaner"; "admin"]) then
    (s, Response 403 "Insufficient permissions")
  else
  match req_status data with
  | None => (s, Response 400 "Invalid status")
  | Some new_status =>
  if String.eqb new_status ""
     || negb (str_in new_status ["Clean"; "Moderate"; "Dirty"]) then
    (s, Response 400 "Invalid status")
  else
  match find_toilet toilet_id (toilets_data s) with
  | None => (s, Response 404 "Toilet not found")
  | Some (i, toilet) =>
      let previous_status := status toilet in
      let toilet := set_status new_status toilet in
      let toilet :=
        set_hygiene_score
          (py_or (req_hygiene_score data) (hygiene_score toilet)) toilet in
      let toilet := set_last_cleaned now toilet in
      let toilet := set_last_updated now toilet in
      let toilet := set_cleaner_assigned (user_email sess) toilet in
      let update :=
        Update uuid4 toilet_id (name toilet) previous_status new_status
          (hygiene_score toilet) (user_name sess) (user_email sess) now
          "cleaned" None in
      (State (<[i := toilet]> (toilets_data s))
         (real_time_updates s ++ [update])%list (completion_threads s),
       Response 200 "Toilet status updated successfully")
  end end end.

(** *** Start cleaning and its delayed completion *)

(** [data.get('toilet_id')] is the whole body the handler reads.  The
    handler starts [complete_cleaning] on two threads, one after the
    other. *)
Definition start_cleaning (uuid4 : string) (now : datetime) (sess : session)
    (data_toilet_id : option string) (s : state) : state * response :=
  match user_email sess with
  | None => (s, Response 401 "Authentication required")
  | Some _ =>
  if negb (option_string_eqb (user_role sess) (Some "cleaner")) then
    (s, Response 403 "Insufficient permissions")
  else
  match data_toilet_id with
  | None => (s, Response 400 "Toilet ID required")
  | Some toilet_id =>
  if String.eqb toilet_id "" then (s, Response 400 "Toilet ID required")
  else
  match find_toilet toilet_id (toilets_data s) with
  | None => (s, Response 404 "Toilet not found")
  | Some (i, toilet) =>
      if negb (option_string_eqb (cleaner_assigned toilet) (user_email sess))
      then (s, Response 403 "Toilet not assigned to you")
      else
        let toilet := set_status "In Progress" toilet in
        let toilet := set_hygiene_score 50 toilet in
        let toilet := set_last_updated now toilet in
        let update :=
          Update uuid4 toilet_id (name toilet) (status toilet) "In Progress"
            50 (user_name sess) (user_email sess) now "cleaning_started"
            None in
        let complete_cleaning :=
          Completion i toilet_id (user_name sess) (user_email sess) in
        (State (<[i := toilet]> (toilets_data s))
           (real_time_updates s ++ [update])%list
           (completion_threads s ++ [complete_cleaning; complete_cleaning])
             %list,
         Response 200 "Cleaning started successfully")
  end end end.

(** The body of the nested [complete_cleaning], run when thread [k] of the
    sleeping ones wakes up after its [time.sleep(30)]. *)
Definition complete_cleaning (uuid4 : string) (now : datetime) (k : nat)
    (s : state) : Rand state :=
  match completion_threads s !! k with
  | None => rand_ret s
  | Some c =>
      match toilets_data s !! c_toilet c with
      | None => rand_ret s
      | Some toilet =>
          (score <- randint 80 95 ;;
           let toilet := set_status "Clean" toilet in
           let toilet := set_hygiene_score score toilet in
           let toilet := set_last_cleaned now toilet in
           let toilet := set_last_updated now toilet in
           let completion_update :=
             Update uuid4 (c_toilet_id c) (name toilet) "In Progress" "Clean"
               (hygiene_score toilet) (c_user_name c) (c_user_email c) now
               "cleaned" (Some (icon toilet)) in
           rand_ret
             (State (<[c_toilet c := toilet]> (toilets_data s))
                (real_time_updates s ++ [completion_update])%list
                (delete k (completion_threads s))))%rand
      end
  end.

(** *** The update feed *)

(** [get_real_time_updates]: the copies of the last 15 entries, each with an
    icon; the timestamps are only reformatted. *)
Definition get_real_time_updates (sess : session) (s : state)
  : response * list update :=
  match user_email sess with
  | None => (Response 401 "Authentication required", [])
  | Some _ =>
      let recent_updates := lastn 15 (real_time_updates s) in
      (Response 200 "",
       map (fun u =>
              Update (update_id u) (toilet_id u) (toilet_name u)
                (previous_status u) (new_status u) (new_score u)
                (cleaner_name u) (cleaner_email u) (timestamp u)
                (update_type u)
                (Some (default "🚻" (update_icon u))))
         recent_updates)
  end.

(** *** Staff tasks *)

Definition calculate_priority (now : datetime) (toilet : toilet) : priority :=
  let time_since_cleaned := now - last_cleaned toilet in
  if (hygiene_score toilet <? 30) || hours_gt time_since_cleaned 8 then high
  else if (hygiene_score toilet <? 60) || hours_gt time_since_cleaned 4
  then medium
  else low.

Record task : Type := Task {
  task_id : string;
  task_toilet_id : string;
  task_toilet_name : string;
  task_toilet_address : string;
  task_priority : priority;
  task_status : progress;
  scheduled_time : datetime
}.

Definition status_rank (p : progress) : nat :=
  match p with in_progress => 0 | pending => 1 | completed => 2 end.

Definition priority_rank (p : priority) : nat :=
  match p with high => 3 | medium => 2 | low => 1 end.

(** The [key] of [tasks.sort]. *)
Definition task_key (x : task) : nat * nat :=
  (status_rank (task_status x), priority_rank (task_priority x)).

(** The task built for one assigned toilet, with its status already
    adjusted to the toilet's condition. *)
Definition make_task (now : datetime) (toilet : toilet) : task :=
  let priority := calculate_priority now toilet in
  Task ("task_" ++ id toilet) (id toilet) (name toilet) (address toilet)
    priority
    (if String.eqb (status toilet) "Dirty" && priority_eqb priority high
     then in_progress
     else if String.eqb (status toilet) "Clean" then completed
     else pending)
    (now + microseconds_per_hour).

Definition assigned_to (user_email : option string) (toilet : toilet) : bool :=
  option_string_eqb (cleaner_assigned toilet) user_email.

Definition get_staff_tasks (now : datetime) (sess : session) (s : state)
  : response * list task :=
  match user_email sess with
  | None => (Response 401 "Authentication required", [])
  | Some _ =>
      if negb (option_string_eqb (user_role sess) (Some "cleaner")) then
        (Response 403 "Insufficient permissions", [])
      else
        let tasks :=
          map (make_task now)
            (filter (fun t => assigned_to (user_email sess) t)
               (toilets_data s)) in
        (Response 200 "", sort_by_key task_key tasks)
  end.

(** *** The priority list *)

(** The [key] of [priority_toilets.sort]: one rank, here padded with 0. *)
Definition priority_key (x : toilet * priority) : nat * nat :=
  (priority_rank x.2, 0%nat).

(** [get_priority_toilets]: every toilet with its priority, sorted with
    [reverse=True]. *)
Definition get_priority_toilets (now : datetime) (sess : session) (s : state)
  : response * list (toilet * priority) :=
  match user_email sess with
  | None => (Response 401 "Authentication required", [])
  | Some _ =>
      if negb (role_in sess ["cleaner"; "admin"]) then
        (Response 403 "Insufficient permissions", [])
      else
        let priority_toilets :=
          map (fun toilet => (toilet, calculate_priority now toilet))
            (toilets_data s) in
        (Response 200 "", sort_by_key_reverse priority_key priority_toilets)
  end.

(** *** The toilet list *)

(** The [summary] object of [get_toilets]. *)
Record summary : Type := Summary { clean : nat; moderate : nat; dirty : nat }.

(** [len([t for t in toilets_data if t['status'] == v])] *)
Definition count_status (v : string) (l : list toilet) : nat :=
  length (filter (fun t => status t = v) l).

(** [get_toilets]: the copies of all toilets, each stamped with the time of
    the call, their number and the summary. *)
Definition get_toilets (now : datetime) (sess : session) (s : state)
  : response * option (list toilet * nat * summary) :=
  match user_email sess with
  | None => (Response 401 "Authentication required", None)
  | Some _ =>
      let toilets_list := map (set_last_updated now) (toilets_data s) in
      (Response 200 "",
       Some (toilets_list, length toilets_list,
             Summary (count_status "Clean" (toilets_data s))
               (count_status "Moderate" (toilets_data s))
               (count_status "Dirty" (toilets_data s))))
  end.

(** [get_toilet_details]: the copy of the first toilet with that id. *)
Definition get_toilet_details (now : datetime) (sess : session)
    (toilet_id : string) (s : state) : response * option toilet :=
  match user_email sess with
  | None => (Response 401 "Authentication required", None)
  | Some _ =>
      match find_toilet toilet_id (toilets_data s) with
      | None => (Response 404 "Toilet not found", None)
      | Some (_, toilet) => (Response 200 "", Some (set_last_updated now toilet))
      end
  end.

End Enhanced.

(** * The staff service ([staff_app.py]) *)

Module Staff.

(** An entry of [toilets_data], loaded from [toilets_data.json]; the
    handlers read [last_cleaned] as a [datetime]. *)
Record toilet : Type := Toilet {
  id : string;
  name : string;
  address : string;
  status : string;
  hygiene_score : Z;
  last_cleaned : datetime;
  cleaner_assigned : option string;
  icon : option string
}.

(** An entry of [staff_updates]: every key is set by the two handlers that
    append to it. *)
Record update : Type := Update {
  update_id : string;
  toilet_id : string;
  toilet_name : string;
  update_type : string;
  previous_status : string;
  new_status : string;
  new_score : Z;
  cleaner_name : string;
  timestamp : datetime;
  update_icon : string
}.

(** The keys the login handler stores together. *)
Record user : Type := User {
  user_email : string;
  user_name : string;
  user_role : string;
  user_id : string
}.

(** The session is empty or holds a logged-in user. *)
Definition session : Type := option user.

(** The module globals, and the payloads handed to [requests.post] by
    [send_update_to_public], oldest first.  A failed post is logged and
    swallowed, so the handlers do not depend on its outcome. *)
Record state : Type := State {
  toilets_data : list toilet;
  staff_updates : list update;
  sent_to_public : list update
}.

Definition set_status (v : string) (t : toilet) : toilet :=
  Toilet (id t) (name t) (address t) v (hygiene_score t) (last_cleaned t)
    (cleaner_assigned t) (icon t).

Definition set_hygiene_score (v : Z) (t : toilet) : toilet :=
  Toilet (id t) (name t) (address t) (status t) v (last_cleaned t)
    (cleaner_assigned t) (icon t).

Definition set_last_cleaned (v : datetime) (t : toilet) : toilet :=
  Toilet (id t) (name t) (address t) (status t) (hygiene_score t) v
    (cleaner_assigned t) (icon t).

(** The [for t in toilets_data: if t['id'] == toilet_id: ... break] loop;
    an absent [toilet_id] equals no id. *)
Definition find_toilet (toilet_id : option string) (l : list toilet)
  : option (nat * toilet) :=
  list_find (fun t => Some (id t) = toilet_id) l.

Definition start_cleaning (uuid4 : string) (now : datetime) (sess : session)
    (data_toilet_id : option string) (s : state) : state * response :=
  match sess with
  | None => (s, Response 401 "Authentication required")
  | Some u =>
  match find_toilet data_toilet_id (toilets_data s) with
  | None => (s, Response 404 "Toilet not found")
  | Some (i, toilet) =>
      if negb (option_string_eqb (cleaner_assigned toilet)
                 (Some (user_email u)))
      then (s, Response 403 "Toilet not assigned to you")
      else
        let previous_status := status toilet in
        let toilet := set_status "Cleaning in Progress" toilet in
        let update :=
          Update uuid4 (id toilet) (name toilet) "cleaning_started"
            previous_status "Cleaning in Progress" (hygiene_score toilet)
            (user_name u) now (default "🚻" (icon toilet)) in
        (State (<[i := toilet]> (toilets_data s))
           (staff_updates s ++ [update])%list
           (sent_to_public s ++ [update])%list,
         Response 200 "Cleaning started successfully")
  end end.

Definition complete_cleaning (uuid4 : string) (now : datetime)
    (sess : session) (data_toilet_id : option string) (s : state)
  : Rand (state * response) :=
  match sess with
  | None => rand_ret (s, Response 401 "Authentication required")
  | Some u =>
  match find_toilet data_toilet_id (toilets_data s) with
  | None => rand_ret (s, Response 404 "Toilet not found")
  | Some (i, toilet) =>
      if negb (option_string_eqb (cleaner_assigned toilet)
                 (Some (user_email u)))
      then rand_ret (s, Response 403 "Toilet not assigned to you")
      else
        (score <- randint 85 100 ;;
         let previous_status := status toilet in
         let toilet := set_status "Clean" toilet in
         let toilet := set_hygiene_score score toilet in
         let toilet := set_last_cleaned now toilet in
         let update :=
           Update uuid4 (id toilet) (name toilet) "cleaning_completed"
             previous_status "Clean" (hygiene_score toilet) (user_name u)
             now (default "🚻" (icon toilet)) in
         rand_ret
           (State (<[i := toilet]> (toilets_data s))
              (staff_updates s ++ [update])%list
              (sent_to_public s ++ [update])%list,
            Response 200 "Cleaning completed successfully"))%rand
  end end.

(** *** The update feed *)

(** The [time_ago] label of a listed update. *)
Inductive ago : Type := minutes_ago (n : Z) | hours_ago (n : Z).

Definition time_ago (time_diff : Z) : ago :=
  if minutes_lt time_diff 60
  then minutes_ago (Z.quot time_diff microseconds_per_minute)
  else hours_ago (Z.quot time_diff microseconds_per_hour).

(** [get_staff_updates]: of the last 20 entries, those at most 30 minutes
    old, each with its label. *)
Definition get_staff_updates (now : datetime) (sess : session) (s : state)
  : response * list (update * ago) :=
  match sess with
  | None => (Response 401 "Authentication required", [])
  | Some _ =>
      (Response 200 "",
       omap (fun update =>
               let time_diff := now - timestamp update in
               if minutes_le time_diff 30
               then Some (update, time_ago time_diff)
               else None)
         (lastn 20 (staff_updates s)))
  end.

(** [sync_with_public], polled by the public service: of the last 10
    entries, those at most 60 minutes old. *)
Definition sync_with_public (now : datetime) (s : state) : list update :=
  filter (fun update => minutes_le (now - timestamp update) 60)
    (lastn 10 (staff_updates s)).

(** *** Urgency *)

Definition calculate_urgency_score (now : datetime) (toilet : toilet) : Z :=
  let score := 0 in
  let score :=
    if String.eqb (status toilet) "Dirty" then score + 50
    else if String.eqb (status toilet) "Needs Cleaning" then score + 30
    else if String.eqb (status toilet) "Moderate" then score + 10
    else score in
  let score :=
    if hygiene_score toilet <? 50 then score + 30
    else if hygiene_score toilet <? 70 then score + 20
    else score in
  let time_since_cleaned := now - last_cleaned toilet in
  let score :=
    if hours_gt time_since_cleaned 8 then score + 20
    else if hours_gt time_since_cleaned 4 then score + 10
    else score in
  Z.min score 100.

Definition get_priority_level (urgency_score : Z) : priority :=
  if 70 <=? urgency_score then high
  else if 40 <=? urgency_score then medium
  else low.

Record task : Type := Task {
  task_id : string;
  task_toilet_id : string;
  task_toilet_name : string;
  task_toilet_address : string;
  task_status : progress;
  task_priority : priority
}.

(** [get_staff_tasks] of this service: no [in_progress] tasks, no sort. *)
Definition get_staff_tasks (now : datetime) (sess : session) (s : state)
  : response * list task :=
  match sess with
  | None => (Response 401 "Authentication required", [])
  | Some u =>
      (Response 200 "",
       map (fun toilet =>
              Task ("task_" ++ id toilet) (id toilet) (name toilet)
                (address toilet)
                (if str_in (status toilet) ["Dirty"; "Needs Cleaning"]
                 then pending else completed)
                (get_priority_level (calculate_urgency_score now toilet)))
         (filter (fun t =>
                    option_string_eqb (cleaner_assigned t)
                      (Some (user_email u)))
            (toilets_data s)))
  end.



End Staff.

(** * The public service ([public_app.py]) *)

Module Public.

(** A value of a JSON object received by the webhook (scalars; numbers are
    integers). *)
Inductive jval : Type :=
  | JNull
  | JBool (b : bool)
  | JNum (z : Z)
  | JStr (s : string).

(** An entry of [real_time_updates]: the webhook stores the received
    values as they are. *)
Record update : Type := Update {
  update_id : string;
  toilet_id : jval;
  toilet_name : jval;
  update_type : jval;
  previous_status : jval;
  new_status : jval;
  new_score : jval;
  cleaner_name : jval;
  timestamp : datetime;
  update_icon : jval
}.

Record state : Type := State { real_time_updates : list update }.

Definition required_fields : list string :=
  ["toilet_id"; "toilet_name"; "type"; "previous_status"; "new_status";
   "timestamp"].

(** [field in data] *)
Definition has_field (data : gmap string jval) (field : string) : bool :=
  match data !! field with Some _ => true | None => false end.

Section Webhook.
(** [datetime.fromisoformat], [None] where it raises [ValueError]. *)
Variable fromisoformat : string -> option datetime.

(** The [timestamp] expression of the stored update. *)
Definition parse_timestamp (now : datetime) (v : jval) : option datetime :=
  match v with
  | JStr s => fromisoformat s
  | _ => Some now
  end.

(** [receive_update]: 400 on a missing required field; an exception
    (a failed subscript, an unparsable timestamp) is caught and answered
    with 500. *)
Definition receive_update (uuid4 : string) (now : datetime)
    (data : gmap string jval) (s : state) : state * response :=
  if negb (forallb (has_field data) required_fields) then
    (s, Response 400 "Missing required fields")
  else
    match data !! "toilet_id", data !! "toilet_name", data !! "type",
          data !! "previous_status", data !! "new_status",
          data !! "timestamp" with
    | Some tid, Some tname, Some ty, Some prev, Some new, Some ts =>
        match parse_timestamp now ts with
        | Some t =>
            let update :=
              Update uuid4 tid tname ty prev new
                (default (JNum 0) (data !! "new_score"))
                (default (JStr "Unknown") (data !! "cleaner_name"))
                t
                (default (JStr "🚻") (data !! "icon")) in
            (State (real_time_updates s ++ [update])%list,
             Response 200 "Update received successfully")
        | None => (s, Response 500 "Invalid isoformat string")
        end
    | _, _, _, _, _, _ => (s, Response 500 "KeyError")
    end.
End Webhook.

(** [api_login_required] of this service: 401 unless the [Authorization]
    header is present, non-empty and starts with "Bearer ". *)
Definition token_ok (token : option string) : bool :=
  match token with
  | Some t => negb (String.eqb t "") && String.prefix "Bearer " t
  | None => false
  end.

(** [get_updates]: of the last 20 entries, those at most 30 minutes old,
    each with its [time_ago] label (the expression of [staff_app.py]). *)
Definition get_updates (now : datetime) (token : option string) (s : state)
  : response * list (update * Staff.ago) :=
  if negb (token_ok token) then (Response 401 "No token provided", [])
  else
    (Response 200 "",
     omap (fun update =>
             let time_diff := now - timestamp update in
             if minutes_le time_diff 30
             then Some (update, Staff.time_ago time_diff)
             else None)
       (lastn 20 (real_time_updates s))).

(** The JSON body of the peer's sync endpoint, as far as it is read. *)
Record sync_response : Type := SyncResponse {
  has_updates : bool;
  updates : list (gmap string jval)
}.

Section Pull.
Variable fromisoformat : string -> option datetime.

(** The update built from one entry of the peer's answer; [None] where a
    subscript or the timestamp raises. *)
Definition synced_update (uuid4 : string) (now : datetime)
    (update_data : gmap string jval) : option update :=
  match update_data !! "toilet_id", update_data !! "toilet_name",
        update_data !! "type", update_data !! "previous_status",
        update_data !! "new_status", update_data !! "timestamp" with
  | Some tid, Some tname, Some ty, Some prev, Some new, Some ts =>
      match parse_timestamp fromisoformat now ts with
      | Some t =>
          Some (Update uuid4 tid tname ty prev new
                  (default (JNum 0) (update_data !! "new_score"))
                  (default (JStr "Unknown") (update_data !! "cleaner_name"))
                  t
                  (default (JStr "🚻") (update_data !! "icon")))
      | None => None
      end
  | _, _, _, _, _, _ => None
  end.

(** The [for update_data in data['updates']] loop; [uuid4 n] is the
    identifier drawn for entry [n].  An exception ends the loop and keeps
    what was appended before it. *)
Fixpoint append_synced (uuid4 : nat -> string) (now : datetime) (n : nat)
    (l : list (gmap string jval)) (ledger : list update) : list update :=
  match l with
  | [] => ledger
  | update_data :: rest =>
      match synced_update (uuid4 n) now update_data with
      | Some update =>
          append_synced uuid4 now (S n) rest (ledger ++ [update])%list
      | None => ledger
      end
  end.

(** [sync_with_staff_interface] on the peer's answer: [None] stands for a
    failed request or a status other than 200. *)
Definition sync_with_staff_interface (uuid4 : nat -> string)
    (now : datetime) (answer : option sync_response) (s : state) : state :=
  match answer with
  | Some data =>
      if has_updates data
      then State (append_synced uuid4 now 0 (updates data)
                    (real_time_updates s))
      else s
  | None => s
  end.
End Pull.

(** [datetime.fromisoformat] restricted to one string, with the epoch as
    the origin of time; used to run the webhook on concrete payloads. *)
Definition sample_fromisoformat (s : string) : option datetime :=
  if String.eqb s "1970-01-01T00:00:10" then Some 10000000 else None.

(** The payload [send_update_to_public] builds for a cleaning_started
    update, and the same payload without its [new_score]. *)
Definition sample_payload : gmap string jval :=
  <["toilet_id" := JStr "toilet_001"]>
  (<["toilet_name" := JStr "Central Park Public Toilet"]>
  (<["type" := JStr "cleaning_started"]>
  (<["previous_status" := JStr "Dirty"]>
  (<["new_status" := JStr "Cleaning in Progress"]>
  (<["new_score" := JNum 25]>
  (<["cleaner_name" := JStr "Cleaning Staff"]>
  (<["timestamp" := JStr "1970-01-01T00:00:10"]>
  (<["icon" := JStr "🚻"]> ∅)))))))).

Definition sample_payload_without_score : gmap string jval :=
  delete "new_score" sample_payload.

(** All fields the specification requires are in [data]. *)
Definition spec_required_fields : list string :=
  ["toilet_id"; "toilet_name"; "type"; "previous_status"; "new_status";
   "new_score"; "timestamp"].

End Public.

(** * From the staff service to the public service *)

Module Propagation.
Import Public.

Section Wire.
(** [datetime.isoformat] *)
Variable isoformat : datetime -> string.

(** The [update_payload] of [send_update_to_public] in [staff_app.py]; an
    entry of the answer of [sync_with_public] has the same keys and
    values. *)
Definition update_payload (u : Staff.update) : gmap string jval :=
  <["toilet_id" := JStr (Staff.toilet_id u)]>
  (<["toilet_name" := JStr (Staff.toilet_name u)]>
  (<["type" := JStr (Staff.update_type u)]>
  (<["previous_status" := JStr (Staff.previous_status u)]>
  (<["new_status" := JStr (Staff.new_status u)]>
  (<["new_score" := JNum (Staff.new_score u)]>
  (<["cleaner_name" := JStr (Staff.cleaner_name u)]>
  (<["timestamp" := JStr (isoformat (Staff.timestamp u))]>
  (<["icon" := JStr (Staff.update_icon u)]> ∅)))))))).

(** The JSON answer of [sync_with_public]. *)
Definition sync_answer (now : datetime) (s : Staff.state) : sync_response :=
  let recent_updates := Staff.sync_with_public now s in
  SyncResponse (0 <? length recent_updates)%nat
    (map update_payload recent_updates).
End Wire.

(** The entry of the public ledger that carries the values of the staff
    entry [u]. *)
Definition mirror (uuid4 : string) (u : Staff.update) : update :=
  Update uuid4 (JStr (Staff.toilet_id u)) (JStr (Staff.toilet_name u))
    (JStr (Staff.update_type u)) (JStr (Staff.previous_status u))
    (JStr (Staff.new_status u)) (JNum (Staff.new_score u))
    (JStr (Staff.cleaner_name u)) (Staff.timestamp u)
    (JStr (Staff.update_icon u)).

(** [datetime.isoformat] at the one instant [sample_fromisoformat]
    knows. *)
Definition sample_isoformat (t : datetime) : string :=
  if t =? 10000000 then "1970-01-01T00:00:10" else "".

End Propagation.

(** * Transitions and vocabulary of the properties *)

Module EnhancedSystem.
Import Enhanced.

(** What can happen to the globals of the enhanced service: an iteration of
    the simulator, a start-cleaning or update-status request, or the
    wake-up of a sleeping completion thread. *)
Inductive action : Type :=
  | Tick (g : rng)
  | StartCleaning (sess : session) (data_toilet_id : option string)
  | CompleteCleaning (k : nat) (g : rng)
  | UpdateStatus (sess : session) (toilet_id : string)
      (data : status_request).

Definition step (uuid4 : string) (now : datetime) (a : action) (s : state)
  : state :=
  match a with
  | Tick g => (simulate_real_time_updates uuid4 now s g).1
  | StartCleaning sess d => (start_cleaning uuid4 now sess d s).1
  | CompleteCleaning k g => (complete_cleaning uuid4 now k s g).1
  | UpdateStatus sess tid data =>
      (update_toilet_status uuid4 now sess tid data s).1
  end.

(** A run: the actions in the order they happen, each with the identifier
    and the clock value it reads. *)
Fixpoint run (trace : list (string * datetime * action)) (s : state)
  : state :=
  match trace with
  | [] => s
  | (uuid4, now, a) :: trace' => run trace' (step uuid4 now a s)
  end.

(** The score an update-status request carries, if it carries one, lies in
    [0, 100]. *)
Definition request_score_ok (a : action) : Prop :=
  match a with
  | UpdateStatus _ _ data =>
      match req_hygiene_score data with
      | Some h => 0 <= h <= 100
      | None => True
      end
  | _ => True
  end.

Definition scores_ok (s : state) : Prop :=
  Forall (fun t => 0 <= hygiene_score t <= 100) (toilets_data s).

(** The sleeping completion threads that captured toilet [i]. *)
Definition pending_completions (i : nat) (s : state) : list completion :=
  filter (fun c => c_toilet c = i) (completion_threads s).

(** The literal [toilets_data] table of the module, for a process started
    at [start]. *)
Definition initial_toilets (start : datetime) : list toilet :=
  [ Toilet "toilet_001" "Central Park Public Toilet"
      "Central Park, Connaught Place, New Delhi" "public" 85 "Clean"
      (start - 2 * microseconds_per_hour) (start + 4 * microseconds_per_hour)
      (Some "cleaner@example.com") "low" true true true "🚻" None;
    Toilet "toilet_002" "Metro Station Toilet"
      "Rajiv Chowk Metro Station, New Delhi" "metro" 45 "Moderate"
      (start - 6 * microseconds_per_hour) (start + 2 * microseconds_per_hour)
      (Some "cleaner@example.com") "high" true false true "🚇" None;
    Toilet "toilet_003" "Shopping Mall Restroom"
      "City Walk Mall, Saket, New Delhi" "mall" 25 "Dirty"
      (start - 8 * microseconds_per_hour) (start - 1 * microseconds_per_hour)
      None "medium" false false false "🏬" None;
    Toilet "toilet_004" "Hospital Restroom" "AIIMS Hospital, New Delhi"
      "hospital" 75 "Clean"
      (start - 1 * microseconds_per_hour) (start + 3 * microseconds_per_hour)
      (Some "cleaner@example.com") "medium" true true true "🏥" None;
    Toilet "toilet_005" "University Campus Toilet"
      "Delhi University North Campus" "university" 35 "Moderate"
      (start - 5 * microseconds_per_hour) (start + 1 * microseconds_per_hour)
      None "high" true false false "🎓" None;
    Toilet "toilet_006" "Gas Station Restroom"
      "Indian Oil Petrol Station, NH8" "gas_station" 20 "Dirty"
      (start - 10 * microseconds_per_hour)
      (start - 2 * microseconds_per_hour)
      None "low" false false false "⛽" None ].

Definition initial_state (start : datetime) : state :=
  State (initial_toilets start) [] [].

(** The facility of the degradation scenario: a clean mall toilet with high
    occupancy and score 85. *)
Definition scenario_toilet (start : datetime) : toilet :=
  Toilet "F1" "Shopping Mall Restroom" "City Walk Mall, Saket, New Delhi"
    "mall" 85 "Clean" (start - 2 * microseconds_per_hour)
    (start + 4 * microseconds_per_hour) (Some "cleaner@example.com") "high"
    true true true "🏬" None.

(** The session of the cleaner of the user table. *)
Definition cleaner_session : session :=
  Session (Some "cleaner@example.com") (Some "cleaner")
    (Some "Cleaning Staff").

(** The edges of the simulator: the status changes an iteration makes. *)
Definition simulator_edge (a b : string) : Prop :=
  (a, b) ∈ [("Clean", "Moderate"); ("Moderate", "Clean");
            ("Moderate", "Dirty"); ("Dirty", "Moderate");
            ("Dirty", "Clean")].

(** What identifies and places a facility: the keys no handler and no
    thread assigns. *)
Definition identity (t : toilet)
  : string * string * string * string * string * datetime * string :=
  (id t, name t, address t, type t, occupancy t, next_scheduled t, icon t).

(** The shape of a toilet in the runs of the service: one of the four
    statuses the code writes, with score 50 while it is being cleaned. *)
Definition status_shape (t : toilet) : Prop :=
  str_in (status t) ["Clean"; "Moderate"; "Dirty"; "In Progress"] = true
  /\ (status t = "In Progress" -> hygiene_score t = 50).

(** The direct status update, as opposed to the other actions. *)
Definition is_status_update (a : action) : bool :=
  match a with
  | UpdateStatus _ _ _ => true
  | _ => false
  end.

(** [real_time_updates[-50:]] when more than 50 entries are held. *)
Definition keep_last_50 (l : list update) : list update :=
  if (50 <? length l)%nat then lastn 50 l else l.

(** A generator whose every raw word is [w]. *)
Definition constant_rng (w : Z) : rng := Rng (fun _ => w) 0.

(** A generator replaying the words of [l], then zeros. *)
Definition replay_rng (l : list Z) : rng := Rng (fun n => nth n l 0) 0.

End EnhancedSystem.

Module StaffSystem.
Import Staff.

Inductive action : Type :=
  | StartCleaning (sess : session) (data_toilet_id : option string)
  | CompleteCleaning (sess : session) (data_toilet_id : option string)
      (g : rng).

Definition step (uuid4 : string) (now : datetime) (a : action) (s : state)
  : state :=
  match a with
  | StartCleaning sess d => (start_cleaning uuid4 now sess d s).1
  | CompleteCleaning sess d g => (complete_cleaning uuid4 now sess d s g).1.1
  end.

Definition scores_ok (s : state) : Prop :=
  Forall (fun t => 0 <= hygiene_score t <= 100) (toilets_data s).

(** A registry with one dirty toilet assigned to [cleaner], and one nobody
    is assigned to. *)
Definition example_toilets (start : datetime) : list toilet :=
  [ Toilet "toilet_001" "Central Park Public Toilet"
      "Central Park, Connaught Place, New Delhi" "Dirty" 25
      (start - 8 * microseconds_per_hour) (Some "cleaner@example.com") None;
    Toilet "toilet_002" "Metro Station Toilet"
      "Rajiv Chowk Metro Station, New Delhi" "Moderate" 45
      (start - 6 * microseconds_per_hour) None None ].

Definition example_state (start : datetime) : state :=
  State (example_toilets start) [] [].

Definition cleaner : user :=
  User "cleaner@example.com" "Cleaning Staff" "cleaner" "staff_001".

(** A run of the staff service. *)
Fixpoint run (trace : list (string * datetime * action)) (s : state)
  : state :=
  match trace with
  | [] => s
  | (uuid4, now, a) :: trace' => run trace' (step uuid4 now a s)
  end.

(** A ledger entry as the two handlers write them: a cleaning_started
    entry leads into the cleaning status, a cleaning_completed entry
    leads to Clean with a score in [85, 100]. *)
Definition entry_ok (u : update) : Prop :=
  (update_type u = "cleaning_started"
   /\ new_status u = "Cleaning in Progress")
  \/ (update_type u = "cleaning_completed"
      /\ new_status u = "Clean" /\ 85 <= new_score u <= 100).

End StaffSystem.

(** ** The ordering of tasks as the specification words it

    Sort key [(statusRank, -priorityRank, facilityId)], compared
    lexicographically, ids as strings. *)

Module TaskOrder.
Import Enhanced.





End TaskOrder.

(** * Properties *)

(** ** The random module *)

Lemma randint_range (a b : Z) (g : rng) :
  a <= b -> a <= (randint a b g).1 <= b.
Proof.
  intros Hab. unfold randint, rand_bind, next_word, rand_ret. simpl.
  pose proof (Z.mod_pos_bound (stream g (cursor g)) (b - a + 1)). lia.
Qed.

Lemma py_int_nonneg (x : Q) : 0 <= Qnum x -> 0 <= py_int x.
Proof.
  intros H. unfold py_int. apply Z.quot_pos; [exact H | lia].
Qed.

Lemma occupancy_multiplier_nonneg (o : string) :
  0 <= Qnum (Enhanced.occupancy_multiplier o).
Proof.
  unfold Enhanced.occupancy_multiplier.
  repeat (case (String.eqb o _)); simpl; lia.
Qed.

Lemma score_drop_nonneg (k : Z) (o : string) :
  0 <= k -> 0 <= py_int (inject_Z k * Enhanced.occupancy_multiplier o).
Proof.
  intros Hk. apply py_int_nonneg. simpl.
  pose proof (occupancy_multiplier_nonneg o). nia.
Qed.

(** ** Scores stay in range *)

Section ScoreRange.
Import Enhanced EnhancedSystem.

Lemma simulate_toilet_score uuid4 now t g :
  0 <= hygiene_score t <= 100 ->
  0 <= hygiene_score (simulate_toilet uuid4 now t g).1.1 <= 100.
Proof.
  intros Ht. unfold simulate_toilet, rand_bind, rand_ret.
  pose proof (fun k => score_drop_nonneg k (occupancy t)) as D.
  repeat match goal with
         | |- context [if ?c then _ else _] => destruct c
         end;
    cbn [fst snd hygiene_score set_hygiene_score set_status
         set_last_updated set_last_cleaned set_water_available
         set_soap_available set_paper_available];
    try lia;
    match goal with
    | |- context [(randint ?a ?b ?g).1] =>
        pose proof (randint_range a b g);
        pose proof (D (randint a b g).1)
    end; lia.
Qed.

Lemma tick_scores_ok uuid4 now s g :
  scores_ok s -> scores_ok (simulate_real_time_updates uuid4 now s g).1.
Proof.
  intros Hs. unfold simulate_real_time_updates, rand_bind, rand_ret.
  destruct (toilets_data s !! _) as [t|] eqn:Hi; [|exact Hs].
  unfold scores_ok. cbn [fst toilets_data].
  apply Forall_insert; [exact Hs|].
  apply simulate_toilet_score.
  exact (proj1 (Forall_lookup _ _) Hs _ _ Hi).
Qed.

Lemma start_cleaning_scores_ok uuid4 now sess d s :
  scores_ok s -> scores_ok (start_cleaning uuid4 now sess d s).1.
Proof.
  intros Hs. unfold start_cleaning.
  repeat match goal with
         | |- context [match ?x with _ => _ end] => destruct x
         end; try exact Hs.
  unfold scores_ok. cbn [fst toilets_data].
  apply Forall_insert; [exact Hs | simpl; lia].
Qed.

Lemma complete_cleaning_scores_ok uuid4 now k s g :
  scores_ok s -> scores_ok (complete_cleaning uuid4 now k s g).1.
Proof.
  intros Hs. unfold complete_cleaning, rand_bind, rand_ret.
  destruct (completion_threads s !! k) as [c|]; [|exact Hs].
  destruct (toilets_data s !! c_toilet c) as [t|]; [|exact Hs].
  unfold scores_ok. cbn [fst toilets_data].
  apply Forall_insert; [exact Hs|].
  cbn [hygiene_score set_hygiene_score set_last_cleaned set_last_updated
       set_status].
  pose proof (randint_range 80 95 g). lia.
Qed.

Lemma update_toilet_status_scores_ok uuid4 now sess tid data s :
  request_score_ok (UpdateStatus sess tid data) ->
  scores_ok s ->
  scores_ok (update_toilet_status uuid4 now sess tid data s).1.
Proof.
  intros Hd Hs. unfold update_toilet_status.
  destruct (user_email sess); [|exact Hs].
  destruct (negb _); [exact Hs|].
  destruct (req_status data) as [new_status|] eqn:Hst; [|exact Hs].
  destruct (_ || _); [exact Hs|].
  destruct (find_toilet tid (toilets_data s)) as [[i t]|] eqn:Hf;
    [|exact Hs].
  apply list_find_Some in Hf as (Hi & _ & _).
  pose proof (proj1 (Forall_lookup _ _) Hs _ _ Hi) as Ht. simpl in Ht.
  unfold scores_ok. cbn [fst toilets_data].
  apply Forall_insert; [exact Hs|]. simpl.
  simpl in Hd. unfold py_or.
  destruct (req_hygiene_score data) as [h|]; [|exact Ht].
  destruct (h =? 0); [exact Ht | exact Hd].
Qed.

Lemma enhanced_step_scores_ok uuid4 now a s :
  request_score_ok a -> scores_ok s -> scores_ok (step uuid4 now a s).
Proof.
  destruct a; intros Ha Hs; cbn [step].
  - by apply tick_scores_ok.
  - by apply start_cleaning_scores_ok.
  - by apply complete_cleaning_scores_ok.
  - by apply update_toilet_status_scores_ok.
Qed.

(** The range is an invariant of every run whose update-status requests
    carry scores in range. *)
Lemma enhanced_run_scores_ok trace s :
  Forall (fun x => request_score_ok x.2) trace ->
  scores_ok s -> scores_ok (run trace s).
Proof.
  revert s. induction trace as [|[[uuid4 now] a] trace IH]; intros s Htr Hs.
  - exact Hs.
  - apply Forall_cons in Htr as [Ha Htr]. cbn [run].
    apply IH; [exact Htr|]. by apply enhanced_step_scores_ok.
Qed.
End ScoreRange.

Section StaffScoreRange.
Import Staff StaffSystem.

Lemma staff_step_scores_ok uuid4 now a s :
  scores_ok s -> scores_ok (step uuid4 now a s).
Proof.
  intros Hs. destruct a as [sess d | sess d g]; cbn [step].
  - unfold start_cleaning.
    destruct sess as [u|]; [|exact Hs].
    destruct (find_toilet d (toilets_data s)) as [[i t]|] eqn:Hf;
      [|exact Hs].
    destruct (negb _); [exact Hs|].
    apply list_find_Some in Hf as (Hi & _ & _).
    unfold scores_ok. cbn [fst toilets_data].
    apply Forall_insert; [exact Hs|].
    exact (proj1 (Forall_lookup _ _) Hs _ _ Hi).
  - unfold complete_cleaning, rand_bind, rand_ret.
    destruct sess as [u|]; [|exact Hs].
    destruct (find_toilet d (toilets_data s)) as [[i t]|]; [|exact Hs].
    destruct (negb _); [exact Hs|].
    unfold scores_ok. cbn [fst toilets_data].
    apply Forall_insert; [exact Hs|].
    cbn [hygiene_score set_hygiene_score set_last_cleaned set_status].
    pose proof (randint_range 85 100 g). lia.
Qed.
End StaffScoreRange.

(** C1 (amended).  Every transition of the simulator, of start-cleaning and
    of a completion keeps each hygiene score in [0, 100], in both services;
    the direct status update keeps it when the score the request carries,
    if any, is itself in [0, 100] (the handler stores that score as it
    comes). *)
Theorem hygiene_score_stays_in_range :
  (forall uuid4 now a s,
      EnhancedSystem.request_score_ok a ->
      EnhancedSystem.scores_ok s ->
      EnhancedSystem.scores_ok (EnhancedSystem.step uuid4 now a s))
  /\ (forall uuid4 now a s,
         StaffSystem.scores_ok s ->
         StaffSystem.scores_ok (StaffSystem.step uuid4 now a s)).
Proof.
  split.
  - intros. by apply enhanced_step_scores_ok.
  - intros. by apply staff_step_scores_ok.
Qed.

Lemma initial_scores_ok start :
  EnhancedSystem.scores_ok (EnhancedSystem.initial_state start).
Proof.
  unfold EnhancedSystem.scores_ok. simpl.
  repeat (apply Forall_cons; split; [simpl; lia|]). apply Forall_nil_2.
Qed.

(** A simulator iteration on the initial table, seen through C1. *)
Lemma hygiene_score_stays_in_range_witness :
  EnhancedSystem.scores_ok
    (EnhancedSystem.step "u1" 0
       (EnhancedSystem.Tick (EnhancedSystem.constant_rng 0))
       (EnhancedSystem.initial_state 0)).
Proof.
  apply (proj1 hygiene_score_stays_in_range).
  - exact I.
  - apply initial_scores_ok.
Defined.

(** C1 as stated fails: a cleaner posts status Clean with score 150 for
    toilet_001 and the stored score is 150. *)
Lemma hygiene_score_out_of_range :
  let s := EnhancedSystem.initial_state 0 in
  let a :=
    EnhancedSystem.UpdateStatus EnhancedSystem.cleaner_session "toilet_001"
      (Enhanced.StatusRequest (Some "Clean") (Some 150)) in
  EnhancedSystem.scores_ok s
  /\ Enhanced.hygiene_score
       <$> Enhanced.toilets_data (EnhancedSystem.step "u1" 0 a s) !! 0%nat
     = Some 150
  /\ ~ EnhancedSystem.scores_ok (EnhancedSystem.step "u1" 0 a s).
Proof.
  intros s a. split; [apply initial_scores_ok|].
  split; [reflexivity|].
  intros H. apply Forall_cons in H as [[_ H] _].
  vm_compute in H. by apply H.
Qed.

(** ** Start cleaning *)

Section StartCleaning.
Import Enhanced EnhancedSystem.

(** The state a successful start-cleaning leaves. *)
Lemma start_cleaning_accepts uuid4 now sess email tid s i t :
  user_email sess = Some email ->
  user_role sess = Some "cleaner" ->
  tid <> "" ->
  find_toilet tid (toilets_data s) = Some (i, t) ->
  cleaner_assigned t = Some email ->
  start_cleaning uuid4 now sess (Some tid) s =
    (State
       (<[i := set_last_updated now
                 (set_hygiene_score 50 (set_status "In Progress" t))]>
          (toilets_data s))
       (real_time_updates s ++
          [Update uuid4 tid (name t) "In Progress" "In Progress" 50
             (user_name sess) (Some email) now "cleaning_started" None])
       (completion_threads s ++
          [Completion i tid (user_name sess) (Some email);
           Completion i tid (user_name sess) (Some email)]),
     Response 200 "Cleaning started successfully").
Proof.
  intros He Hr Hne Hf Ha. unfold start_cleaning.
  rewrite He, Hr, Hf, Ha. cbn [option_string_eqb].
  rewrite !String.eqb_refl. cbn [negb].
  destruct (String.eqb_spec tid ""); [contradiction|]. reflexivity.
Qed.

(** Every 200 answer of start-cleaning comes from that path. *)
Lemma start_cleaning_success uuid4 now sess d s :
  code (start_cleaning uuid4 now sess d s).2 = 200 ->
  exists email tid i t,
    user_email sess = Some email /\ user_role sess = Some "cleaner"
    /\ d = Some tid /\ tid <> ""
    /\ find_toilet tid (toilets_data s) = Some (i, t)
    /\ cleaner_assigned t = Some email.
Proof.
  unfold start_cleaning.
  destruct (user_email sess) as [email|] eqn:He; [|discriminate].
  destruct (user_role sess) as [r|] eqn:Hr; [|discriminate].
  cbn [option_string_eqb].
  destruct (String.eqb_spec r "cleaner") as [->|]; [|discriminate].
  cbn [negb]. destruct d as [tid|]; [|discriminate].
  destruct (String.eqb_spec tid ""); [discriminate|].
  destruct (find_toilet tid (toilets_data s)) as [[i t]|] eqn:Hf;
    [|discriminate].
  destruct (cleaner_assigned t) as [a|] eqn:Ha; [|discriminate].
  cbn [option_string_eqb].
  destruct (String.eqb_spec a email) as [->|]; [|discriminate].
  intros _. by exists email, tid, i, t.
Qed.

Lemma find_toilet_lookup tid l i t :
  find_toilet tid l = Some (i, t) -> l !! i = Some t /\ id t = tid.
Proof.
  intros Hf. apply list_find_Some in Hf as (Hi & Hid & _). by split.
Qed.
End StartCleaning.

Section StaffStartCleaning.
Import Staff StaffSystem.

Lemma staff_start_cleaning_accepts uuid4 now u d s i t :
  find_toilet d (toilets_data s) = Some (i, t) ->
  cleaner_assigned t = Some (user_email u) ->
  start_cleaning uuid4 now (Some u) d s =
    (State (<[i := set_status "Cleaning in Progress" t]> (toilets_data s))
       (staff_updates s ++
          [Update uuid4 (id t) (name t) "cleaning_started" (status t)
             "Cleaning in Progress" (hygiene_score t) (user_name u) now
             (default "🚻" (icon t))])
       (sent_to_public s ++
          [Update uuid4 (id t) (name t) "cleaning_started" (status t)
             "Cleaning in Progress" (hygiene_score t) (user_name u) now
             (default "🚻" (icon t))]),
     Response 200 "Cleaning started successfully").
Proof.
  intros Hf Ha. unfold start_cleaning. rewrite Hf, Ha.
  cbn [option_string_eqb]. rewrite String.eqb_refl. reflexivity.
Qed.
End StaffStartCleaning.

(** C2 (amended).  Neither service guards start-cleaning against a facility
    that is already being cleaned: the request of its assigned cleaner is
    answered 200, the status stays the cleaning status, the enhanced
    service stores score 50 and the staff service leaves the score as it
    is. *)
Theorem second_start_cleaning_is_accepted :
  (forall uuid4 now sess email tid s i t,
      Enhanced.user_email sess = Some email ->
      Enhanced.user_role sess = Some "cleaner" ->
      tid <> "" ->
      Enhanced.find_toilet tid (Enhanced.toilets_data s) = Some (i, t) ->
      Enhanced.cleaner_assigned t = Some email ->
      Enhanced.status t = "In Progress" ->
      let r := Enhanced.start_cleaning uuid4 now sess (Some tid) s in
      code r.2 = 200
      /\ exists t',
           Enhanced.toilets_data r.1 !! i = Some t'
           /\ Enhanced.status t' = "In Progress"
           /\ Enhanced.hygiene_score t' = 50)
  /\ (forall uuid4 now u d s i t,
         Staff.find_toilet d (Staff.toilets_data s) = Some (i, t) ->
         Staff.cleaner_assigned t = Some (Staff.user_email u) ->
         Staff.status t = "Cleaning in Progress" ->
         let r := Staff.start_cleaning uuid4 now (Some u) d s in
         code r.2 = 200
         /\ exists t',
              Staff.toilets_data r.1 !! i = Some t'
              /\ Staff.status t' = "Cleaning in Progress"
              /\ Staff.hygiene_score t' = Staff.hygiene_score t).
Proof.
  split.
  - intros uuid4 now sess email tid s i t He Hr Hne Hf Ha Hst r.
    subst r. rewrite (start_cleaning_accepts _ _ _ email _ _ i t) by done.
    split; [reflexivity|]. eexists. split.
    { cbn [fst Enhanced.toilets_data].
      apply find_toilet_lookup in Hf as [Hi _].
      apply list_lookup_insert_eq. by eapply lookup_lt_Some. }
    split; reflexivity.
  - intros uuid4 now u d s i t Hf Ha Hst r.
    subst r. rewrite (staff_start_cleaning_accepts _ _ _ _ _ i t) by done.
    split; [reflexivity|]. eexists. split.
    { cbn [fst Staff.toilets_data].
      apply list_find_Some in Hf as (Hi & _ & _).
      apply list_lookup_insert_eq. by eapply lookup_lt_Some. }
    split; reflexivity.
Qed.

(** A second start-cleaning on toilet_001 of the enhanced service, seen
    through C2. *)
Lemma second_start_cleaning_is_accepted_witness :
  let s1 :=
    (Enhanced.start_cleaning "u1" 0 EnhancedSystem.cleaner_session
       (Some "toilet_001") (EnhancedSystem.initial_state 0)).1 in
  let r :=
    Enhanced.start_cleaning "u2" 1 EnhancedSystem.cleaner_session
      (Some "toilet_001") s1 in
  code r.2 = 200
  /\ exists t',
       Enhanced.toilets_data r.1 !! 0%nat = Some t'
       /\ Enhanced.status t' = "In Progress"
       /\ Enhanced.hygiene_score t' = 50.
Proof.
  intros s1.
  eapply (proj1 second_start_cleaning_is_accepted "u2" 1
            EnhancedSystem.cleaner_session "cleaner@example.com"
            "toilet_001" s1 0%nat).
  - reflexivity.
  - reflexivity.
  - discriminate.
  - vm_compute. reflexivity.
  - reflexivity.
  - reflexivity.
Defined.

(** C2 as stated fails in both services: the second start-cleaning on a
    toilet that is being cleaned is answered 200, not 409. *)
Lemma second_start_cleaning_not_rejected :
  (let s1 :=
     (Enhanced.start_cleaning "u1" 0 EnhancedSystem.cleaner_session
        (Some "toilet_001") (EnhancedSystem.initial_state 0)).1 in
   Enhanced.status <$> Enhanced.toilets_data s1 !! 0%nat
     = Some "In Progress"
   /\ code (Enhanced.start_cleaning "u2" 1 EnhancedSystem.cleaner_session
              (Some "toilet_001") s1).2 = 200
   /\ code (Enhanced.start_cleaning "u2" 1 EnhancedSystem.cleaner_session
              (Some "toilet_001") s1).2 <> 409)
  /\ (let s1 :=
        (Staff.start_cleaning "u1" 0 (Some StaffSystem.cleaner)
           (Some "toilet_001") (StaffSystem.example_state 0)).1 in
      Staff.status <$> Staff.toilets_data s1 !! 0%nat
        = Some "Cleaning in Progress"
      /\ code (Staff.start_cleaning "u2" 1 (Some StaffSystem.cleaner)
                 (Some "toilet_001") s1).2 = 200
      /\ code (Staff.start_cleaning "u2" 1 (Some StaffSystem.cleaner)
                 (Some "toilet_001") s1).2 <> 409).
Proof.
  split; (split; [vm_compute; reflexivity|]);
    (split; [vm_compute; reflexivity | vm_compute; discriminate]).
Qed.

(** C10.  The cleaning_started event of the enhanced service reads the
    toilet's status after it has been set: whenever start-cleaning succeeds,
    the one event it appends has previous_status "In Progress", whatever
    the status was before the call. *)
Theorem cleaning_started_previous_status uuid4 now sess d s :
  code (Enhanced.start_cleaning uuid4 now sess d s).2 = 200 ->
  exists u,
    Enhanced.real_time_updates (Enhanced.start_cleaning uuid4 now sess d s).1
      = (Enhanced.real_time_updates s ++ [u])%list
    /\ Enhanced.update_type u = "cleaning_started"
    /\ Enhanced.previous_status u = "In Progress"
    /\ Enhanced.new_status u = "In Progress".
Proof.
  intros H.
  apply start_cleaning_success in H
    as (email & tid & i & t & He & Hr & -> & Hne & Hf & Ha).
  rewrite (start_cleaning_accepts _ _ _ email _ _ i t) by done.
  eexists. split; [reflexivity|]. by repeat split.
Qed.

(** Start-cleaning on the clean toilet_001: the recorded previous status is
    not "Clean". *)
Lemma cleaning_started_previous_status_witness :
  Enhanced.status
    <$> Enhanced.toilets_data (EnhancedSystem.initial_state 0) !! 0%nat
    = Some "Clean"
  /\ exists u,
       Enhanced.real_time_updates
         (Enhanced.start_cleaning "u1" 0 EnhancedSystem.cleaner_session
            (Some "toilet_001") (EnhancedSystem.initial_state 0)).1
         = ([] ++ [u])%list
       /\ Enhanced.update_type u = "cleaning_started"
       /\ Enhanced.previous_status u = "In Progress"
       /\ Enhanced.new_status u = "In Progress".
Proof.
  split; [reflexivity|].
  apply (cleaning_started_previous_status "u1" 0
           EnhancedSystem.cleaner_session (Some "toilet_001")
           (EnhancedSystem.initial_state 0)).
  reflexivity.
Defined.

(** ** Completion threads *)

Section Completions.
Import Enhanced EnhancedSystem.

Lemma pending_completions_app i l1 l2 cs us :
  pending_completions i (State l1 us (cs ++ l2)) =
    (pending_completions i (State l1 us cs)
       ++ filter (fun c => c_toilet c = i) l2)%list.
Proof. unfold pending_completions. simpl. apply filter_app. Qed.
End Completions.

(** C4 (amended).  A successful start-cleaning starts completion threads
    for the toilet it names, whatever completions are already pending for
    that toilet: there is no one-per-facility bound, and the number of
    pending completions of the toilet grows with every accepted call. *)
Theorem start_cleaning_spawns_completions uuid4 now sess d s :
  code (Enhanced.start_cleaning uuid4 now sess d s).2 = 200 ->
  exists tid i t,
    d = Some tid
    /\ Enhanced.find_toilet tid (Enhanced.toilets_data s) = Some (i, t)
    /\ (length (EnhancedSystem.pending_completions i s)
        < length
            (EnhancedSystem.pending_completions i
               (Enhanced.start_cleaning uuid4 now sess d s).1))%nat.
Proof.
  intros H.
  apply start_cleaning_success in H
    as (email & tid & i & t & He & Hr & -> & Hne & Hf & Ha).
  exists tid, i, t. split; [reflexivity|]. split; [exact Hf|].
  rewrite (start_cleaning_accepts _ _ _ email _ _ i t) by done.
  cbn [fst]. rewrite pending_completions_app, length_app.
  unfold EnhancedSystem.pending_completions.
  cbn [Enhanced.completion_threads].
  rewrite !filter_cons_True by reflexivity. simpl. lia.
Qed.

(** Start-cleaning on toilet_001 of the initial table, seen through C4. *)
Lemma start_cleaning_spawns_completions_witness :
  exists tid i t,
    Some "toilet_001" = Some tid
    /\ Enhanced.find_toilet tid
         (Enhanced.toilets_data (EnhancedSystem.initial_state 0))
       = Some (i, t)
    /\ (length
          (EnhancedSystem.pending_completions i
             (EnhancedSystem.initial_state 0%Z))
        < length
            (EnhancedSystem.pending_completions i
               (Enhanced.start_cleaning "u1" 0%Z
                  EnhancedSystem.cleaner_session (Some "toilet_001")
                  (EnhancedSystem.initial_state 0%Z)).1))%nat.
Proof.
  apply (start_cleaning_spawns_completions "u1" 0
           EnhancedSystem.cleaner_session (Some "toilet_001")
           (EnhancedSystem.initial_state 0)).
  reflexivity.
Defined.

(** C4 as stated fails: after two accepted start-cleaning calls on
    toilet_001 more than one completion is pending for it. *)
Lemma more_than_one_pending_completion :
  let s1 :=
    (Enhanced.start_cleaning "u1" 0 EnhancedSystem.cleaner_session
       (Some "toilet_001") (EnhancedSystem.initial_state 0)).1 in
  let r2 :=
    Enhanced.start_cleaning "u2" 1 EnhancedSystem.cleaner_session
      (Some "toilet_001") s1 in
  code r2.2 = 200
  /\ (1 < length (EnhancedSystem.pending_completions 0 r2.1))%nat.
Proof.
  split; [reflexivity|]. vm_compute. lia.
Qed.

(** ** Writers of a toilet that is being cleaned *)

Section CleaningWriters.
Import Enhanced EnhancedSystem.

(** No branch of the simulator matches the cleaning status. *)
Lemma simulate_toilet_in_progress uuid4 now t g :
  status t = "In Progress" ->
  simulate_toilet uuid4 now t g = (t, None, g).
Proof.
  intros Hst. unfold simulate_toilet. rewrite Hst. reflexivity.
Qed.

Lemma tick_keeps_in_progress uuid4 now s g i t :
  toilets_data s !! i = Some t ->
  status t = "In Progress" ->
  toilets_data (simulate_real_time_updates uuid4 now s g).1 !! i = Some t.
Proof.
  intros Hi Hst. unfold simulate_real_time_updates, rand_bind, rand_ret.
  set (j := (choice_index (length (toilets_data s)) g).1).
  destruct (toilets_data s !! j) as [tj|] eqn:Hj; [|exact Hi].
  cbn [fst toilets_data].
  destruct (decide (j = i)) as [->|Hne].
  - assert (tj = t) as -> by congruence.
    rewrite simulate_toilet_in_progress by exact Hst.
    cbn [fst]. by rewrite list_insert_id.
  - by rewrite list_lookup_insert_ne.
Qed.

(** The direct status update has no guard on the current status. *)
Lemma update_toilet_status_overwrites uuid4 now sess email tid data
    new_status s i t :
  user_email sess = Some email ->
  role_in sess ["cleaner"; "admin"] = true ->
  req_status data = Some new_status ->
  str_in new_status ["Clean"; "Moderate"; "Dirty"] = true ->
  find_toilet tid (toilets_data s) = Some (i, t) ->
  code (update_toilet_status uuid4 now sess tid data s).2 = 200
  /\ status
       <$> toilets_data (update_toilet_status uuid4 now sess tid data s).1
           !! i
     = Some new_status.
Proof.
  intros He Hr Hd Hin Hf. unfold update_toilet_status.
  rewrite He, Hr, Hd, Hin, Hf. cbn [negb orb].
  destruct (String.eqb_spec new_status "") as [->|_]; [discriminate|].
  cbn [orb fst snd code toilets_data]. split; [reflexivity|].
  apply find_toilet_lookup in Hf as [Hi _].
  rewrite list_lookup_insert_eq by (by eapply lookup_lt_Some).
  reflexivity.
Qed.
End CleaningWriters.

(** C3 (amended).  While a toilet of the enhanced service has the cleaning
    status, an iteration of the simulator leaves it exactly as it is; the
    direct status update is not guarded: a request of a cleaner or admin
    with a valid status is answered 200 and overwrites the status. *)
Theorem cleaning_status_writers uuid4 now s i t :
  Enhanced.toilets_data s !! i = Some t ->
  Enhanced.status t = "In Progress" ->
  (forall g,
      Enhanced.toilets_data
        (Enhanced.simulate_real_time_updates uuid4 now s g).1 !! i = Some t)
  /\ (forall sess email data new_status,
         Enhanced.user_email sess = Some email ->
         Enhanced.role_in sess ["cleaner"; "admin"] = true ->
         Enhanced.req_status data = Some new_status ->
         str_in new_status ["Clean"; "Moderate"; "Dirty"] = true ->
         Enhanced.find_toilet (Enhanced.id t) (Enhanced.toilets_data s)
           = Some (i, t) ->
         let r :=
           Enhanced.update_toilet_status uuid4 now sess (Enhanced.id t) data
             s in
         code r.2 = 200
         /\ Enhanced.status <$> Enhanced.toilets_data r.1 !! i
            = Some new_status).
Proof.
  intros Hi Hst. split.
  - intros g. by apply tick_keeps_in_progress.
  - intros sess email data new_status He Hr Hd Hin Hf r. subst r.
    by eapply update_toilet_status_overwrites.
Qed.

(** Toilet_001 after a start-cleaning, seen through C3. *)
Lemma cleaning_status_writers_witness :
  let s1 :=
    (Enhanced.start_cleaning "u1" 0 EnhancedSystem.cleaner_session
       (Some "toilet_001") (EnhancedSystem.initial_state 0)).1 in
  exists t,
    Enhanced.toilets_data s1 !! 0%nat = Some t
    /\ Enhanced.status t = "In Progress"
    /\ forall g,
         Enhanced.toilets_data
           (Enhanced.simulate_real_time_updates "u2" 1 s1 g).1 !! 0%nat
         = Some t.
Proof.
  intros s1. eexists. split; [reflexivity|]. split; [reflexivity|].
  apply (proj1 (cleaning_status_writers "u2" 1 s1 0%nat _ eq_refl eq_refl)).
Defined.

(** C3 as stated fails: the cleaner posts status Dirty for toilet_001 while
    it is being cleaned, and the status is overwritten. *)
Lemma status_update_overwrites_cleaning :
  let s1 :=
    (Enhanced.start_cleaning "u1" 0 EnhancedSystem.cleaner_session
       (Some "toilet_001") (EnhancedSystem.initial_state 0)).1 in
  let r :=
    Enhanced.update_toilet_status "u2" 1 EnhancedSystem.cleaner_session
      "toilet_001" (Enhanced.StatusRequest (Some "Dirty") None) s1 in
  Enhanced.status <$> Enhanced.toilets_data s1 !! 0%nat = Some "In Progress"
  /\ code r.2 = 200
  /\ Enhanced.status <$> Enhanced.toilets_data r.1 !! 0%nat = Some "Dirty".
Proof.
  repeat split; vm_compute; reflexivity.
Qed.

(** ** The Clean to Moderate transition *)

Section Degradation.
Import Enhanced EnhancedSystem.

(** The Clean branch of the simulator, once it fires. *)
Lemma simulate_toilet_clean_fires uuid4 now t g :
  status t = "Clean" ->
  Qltb (random g).1
    (degradation_rate (type t) * occupancy_multiplier (occupancy t)) = true ->
  let t' := (simulate_toilet uuid4 now t g).1.1 in
  status t' = "Moderate"
  /\ hygiene_score t' =
       Z.max 50
         (hygiene_score t
          - py_int (inject_Z (randint 8 20 (random g).2).1
                    * occupancy_multiplier (occupancy t))).
Proof.
  intros Hst Hfire. unfold simulate_toilet, rand_bind, rand_ret.
  rewrite Hst. cbn [String.eqb Ascii.eqb Bool.eqb].
  rewrite Hfire. cbn [fst snd].
  split; repeat match goal with
                | |- context [if ?c then _ else _] => destruct c
                end; reflexivity.
Qed.

Lemma high_occupancy_drop (k : Z) :
  8 <= k <= 20 -> 12 <= py_int (inject_Z k * occupancy_multiplier "high") <= 30.
Proof.
  intros Hk. unfold py_int. cbn.
  rewrite Z.quot_div_nonneg by lia.
  split.
  - apply Z.div_le_lower_bound; lia.
  - apply Z.div_le_upper_bound; lia.
Qed.
End Degradation.

(** C6 (amended).  For a mall toilet with high occupancy, status Clean and
    score 85 that the simulator selects, if the Clean-to-Moderate branch
    fires the status becomes Moderate and the score lies in [55, 73]: the
    drop is the drawn number of [8, 20] times the occupancy multiplier 1.5,
    truncated. *)
Theorem clean_to_moderate_mall_high uuid4 now s g i t :
  Enhanced.toilets_data s !! i = Some t ->
  Enhanced.type t = "mall" ->
  Enhanced.occupancy t = "high" ->
  Enhanced.status t = "Clean" ->
  Enhanced.hygiene_score t = 85 ->
  (choice_index (length (Enhanced.toilets_data s)) g).1 = i ->
  Qltb (random (choice_index (length (Enhanced.toilets_data s)) g).2).1
    (Enhanced.degradation_rate "mall" * Enhanced.occupancy_multiplier "high")
    = true ->
  exists t',
    Enhanced.toilets_data
      (Enhanced.simulate_real_time_updates uuid4 now s g).1 !! i = Some t'
    /\ Enhanced.status t' = "Moderate"
    /\ 55 <= Enhanced.hygiene_score t' <= 73.
Proof.
  intros Hi Hty Hocc Hst Hsc Hch Hfire.
  unfold Enhanced.simulate_real_time_updates, rand_bind, rand_ret.
  rewrite Hch, Hi. cbn [fst Enhanced.toilets_data].
  eexists. split.
  { apply list_lookup_insert_eq. by eapply lookup_lt_Some. }
  rewrite <- Hty, <- Hocc in Hfire.
  destruct (simulate_toilet_clean_fires uuid4 now t _ Hst Hfire) as [H1 H2].
  split; [exact H1|]. cbn zeta in H2. rewrite H2, Hsc, Hocc.
  pose proof (randint_range 8 20
                (random (choice_index (length (Enhanced.toilets_data s)) g).2).2
                ltac:(lia)) as Hk.
  pose proof (high_occupancy_drop _ Hk). lia.
Qed.

(** The scenario facility with the smallest drop: score 73. *)
Lemma clean_to_moderate_mall_high_witness :
  let s := Enhanced.State [EnhancedSystem.scenario_toilet 0] [] [] in
  let g := EnhancedSystem.replay_rng [0; 0; 0] in
  exists t',
    Enhanced.toilets_data
      (Enhanced.simulate_real_time_updates "u1" 0 s g).1 !! 0%nat = Some t'
    /\ Enhanced.status t' = "Moderate"
    /\ 55 <= Enhanced.hygiene_score t' <= 73.
Proof.
  intros s g.
  apply (clean_to_moderate_mall_high "u1" 0 s g 0%nat
           (EnhancedSystem.scenario_toilet 0));
    try reflexivity.
Defined.

(** C6 as stated fails: when the draw of [8, 20] is 20 the drop is
    int(20 * 1.5) = 30 and the score becomes 55, below 65. *)
Lemma clean_to_moderate_score_55 :
  let s := Enhanced.State [EnhancedSystem.scenario_toilet 0] [] [] in
  let g := EnhancedSystem.replay_rng [0; 0; 12] in
  let t' :=
    Enhanced.toilets_data
      (Enhanced.simulate_real_time_updates "u1" 0 s g).1 !! 0%nat in
  Qltb (random (choice_index 1 g).2).1
    (Enhanced.degradation_rate "mall" * Enhanced.occupancy_multiplier "high")
    = true
  /\ (randint 8 20 (random (choice_index 1 g).2).2).1 = 20
  /\ Enhanced.status <$> t' = Some "Moderate"
  /\ Enhanced.hygiene_score <$> t' = Some 55
  /\ ~ (exists x, Enhanced.hygiene_score <$> t' = Some x /\ 65 <= x <= 77).
Proof.
  repeat split; try (vm_compute; reflexivity).
  intros (x & Hx & H). vm_compute in Hx. injection Hx as <-. lia.
Qed.

(** ** The stable sort *)

Section SortFacts.
Context {A : Type} (key : A -> nat * nat).

Lemma key_le_spec (a b : nat * nat) :
  key_le a b = true <-> (a.1 < b.1 \/ (a.1 = b.1 /\ a.2 <= b.2))%nat.
Proof.
  unfold key_le.
  rewrite orb_true_iff, andb_true_iff, Nat.ltb_lt, Nat.eqb_eq, Nat.leb_le.
  reflexivity.
Qed.

Lemma key_le_total (a b : nat * nat) :
  key_le a b = false -> key_le b a = true.
Proof.
  intros H. apply key_le_spec.
  destruct (key_le a b) eqn:E; [discriminate|].
  assert (~ (a.1 < b.1 \/ (a.1 = b.1 /\ a.2 <= b.2))%nat) as N.
  { intros C. apply key_le_spec in C. congruence. }
  lia.
Qed.

Lemma key_le_trans (a b c : nat * nat) :
  key_le a b = true -> key_le b c = true -> key_le a c = true.
Proof. rewrite !key_le_spec. lia. Qed.

Lemma key_le_refl (a : nat * nat) : key_le a a = true.
Proof. apply key_le_spec. lia. Qed.

Lemma insert_by_key_perm (x : A) (l : list A) :
  insert_by_key key x l ≡ₚ x :: l.
Proof.
  induction l as [|y l IH]; simpl; [reflexivity|].
  destruct (key_le (key x) (key y)); [reflexivity|].
  rewrite IH. apply Permutation_swap.
Qed.

Lemma sort_by_key_perm (l : list A) : sort_by_key key l ≡ₚ l.
Proof.
  induction l as [|x l IH]; simpl; [reflexivity|].
  rewrite insert_by_key_perm. by rewrite IH.
Qed.

Lemma insert_by_key_sorted (x : A) (l : list A) :
  StronglySorted (key_ordered key) l ->
  StronglySorted (key_ordered key) (insert_by_key key x l).
Proof.
  induction 1 as [|y l Hl IH Hy]; simpl.
  - repeat constructor.
  - destruct (key_le (key x) (key y)) eqn:E.
    + constructor; [by constructor|].
      constructor; [exact E|].
      eapply Forall_impl; [exact Hy|].
      intros z Hz. unfold key_ordered in *. by eapply key_le_trans.
    + constructor; [exact IH|].
      rewrite insert_by_key_perm. constructor; [|exact Hy].
      by apply key_le_total.
Qed.

Lemma sort_by_key_sorted (l : list A) :
  StronglySorted (key_ordered key) (sort_by_key key l).
Proof.
  induction l as [|x l IH]; simpl; [constructor|].
  by apply insert_by_key_sorted.
Qed.

(** Stability: elements of equal key keep their order. *)
Lemma insert_by_key_stable (k : nat * nat) (x : A) (l : list A) :
  filter (fun y => key y = k) (insert_by_key key x l)
  = filter (fun y => key y = k) (x :: l).
Proof.
  induction l as [|y l IH]; simpl; [reflexivity|].
  destruct (key_le (key x) (key y)) eqn:E; [reflexivity|].
  assert (key x <> key y) as Hne.
  { intros Heq. rewrite Heq, key_le_refl in E. discriminate. }
  rewrite (filter_cons _ y), IH, !filter_cons.
  repeat case_decide; try reflexivity. congruence.
Qed.

Lemma sort_by_key_stable (k : nat * nat) (l : list A) :
  filter (fun y => key y = k) (sort_by_key key l)
  = filter (fun y => key y = k) l.
Proof.
  induction l as [|x l IH]; simpl; [reflexivity|].
  rewrite insert_by_key_stable, !filter_cons, IH. reflexivity.
Qed.
End SortFacts.

(** ** Staff tasks *)

Section Tasks.
Import Enhanced TaskOrder.



Lemma StronglySorted_weaken {A : Type} (R S : A -> A -> Prop) (l : list A) :
  (forall x y, R x y -> S x y) -> StronglySorted R l -> StronglySorted S l.
Proof.
  intros HRS. induction 1 as [|x l Hl IH Hx]; constructor; [exact IH|].
  eapply Forall_impl; [exact Hx|]. intros y. apply HRS.
Qed.

End Tasks.




(** ** Urgency *)

(** C7.  The urgency score is a function of the toilet and the clock only;
    between two toilets of equal status, the one with the lower (or equal)
    hygiene score and the longer (or equal) time since its last cleaning
    has the greater or equal score; every score lies in [0, 100]. *)
Theorem urgency_score_monotone now (better worse : Staff.toilet) :
  Staff.status worse = Staff.status better ->
  Staff.hygiene_score worse <= Staff.hygiene_score better ->
  now - Staff.last_cleaned better <= now - Staff.last_cleaned worse ->
  Staff.calculate_urgency_score now better
    <= Staff.calculate_urgency_score now worse
  /\ 0 <= Staff.calculate_urgency_score now better <= 100
  /\ 0 <= Staff.calculate_urgency_score now worse <= 100.
Proof.
  intros Hst Hh Ht. unfold Staff.calculate_urgency_score, hours_gt.
  rewrite Hst.
  repeat match goal with
         | |- context [String.eqb ?a ?b] => destruct (String.eqb a b)
         end;
    repeat match goal with
           | |- context [?a <? ?b] => destruct (Z.ltb_spec a b)
           end;
    lia.
Qed.

(** A dirty toilet at score 25 cleaned nine hours ago against the same
    toilet at score 65 cleaned five hours ago: 100 against 80. *)
Lemma urgency_score_monotone_witness :
  let now := 10 * microseconds_per_hour in
  let better :=
    Staff.Toilet "toilet_001" "Central Park Public Toilet" "Central Park"
      "Dirty" 65 (5 * microseconds_per_hour) None None in
  let worse :=
    Staff.Toilet "toilet_001" "Central Park Public Toilet" "Central Park"
      "Dirty" 25 (1 * microseconds_per_hour) None None in
  Staff.calculate_urgency_score now better
    <= Staff.calculate_urgency_score now worse
  /\ 0 <= Staff.calculate_urgency_score now better <= 100
  /\ 0 <= Staff.calculate_urgency_score now worse <= 100.
Proof.
  intros now better worse.
  apply (urgency_score_monotone now better worse).
  - reflexivity.
  - vm_compute. discriminate.
  - vm_compute. discriminate.
Defined.

(** ** The update feeds *)

Lemma length_lastn {A : Type} (n : nat) (l : list A) :
  (length (lastn n l) <= n)%nat.
Proof. unfold lastn. rewrite length_drop. lia. Qed.

Lemma length_omap_le {A B : Type} (f : A -> option B) (l : list A) :
  (length (omap f l) <= length l)%nat.
Proof.
  induction l as [|x l IH]; [reflexivity|].
  change (omap f (x :: l))
    with (match f x with Some y => y :: omap f l | None => omap f l end).
  destruct (f x); cbn [length]; lia.
Qed.

Section Feeds.
Import Staff.

Lemma get_staff_updates_recent now sess s :
  Forall (fun v =>
            now - timestamp v.1 <= 30 * microseconds_per_minute
            /\ v.1 ∈ lastn 20 (staff_updates s))
    (get_staff_updates now sess s).2.
Proof.
  unfold get_staff_updates. destruct sess as [u|]; [|constructor].
  cbn [snd]. apply Forall_forall. intros v Hv.
  apply list_elem_of_omap in Hv as (x & Hx & Hf).
  unfold minutes_le in Hf.
  destruct (Z.leb_spec (now - timestamp x) (30 * microseconds_per_minute));
    [|discriminate].
  injection Hf as <-. by split.
Qed.
End Feeds.

(** C8 (amended).  The staff service's feed returns at most 20 entries,
    taken from the last 20 of the ledger, none older than its fixed window
    of 30 minutes; the enhanced service's feed returns the last 15 entries
    of the ledger (at most 15) whatever their age: it has no window. *)
Theorem update_feeds_bounded :
  (forall now sess s,
      (length (Staff.get_staff_updates now sess s).2 <= 20)%nat
      /\ Forall (fun v =>
                   now - Staff.timestamp v.1 <= 30 * microseconds_per_minute
                   /\ v.1 ∈ lastn 20 (Staff.staff_updates s))
           (Staff.get_staff_updates now sess s).2)
  /\ (forall sess s,
         (length (Enhanced.get_real_time_updates sess s).2 <= 15)%nat
         /\ (forall email,
                Enhanced.user_email sess = Some email ->
                map Enhanced.timestamp
                  (Enhanced.get_real_time_updates sess s).2
                = map Enhanced.timestamp
                    (lastn 15 (Enhanced.real_time_updates s)))).
Proof.
  split.
  - intros now sess s. split; [|apply get_staff_updates_recent].
    unfold Staff.get_staff_updates. destruct sess; simpl; [|lia].
    etransitivity; [apply length_omap_le | apply length_lastn].
  - intros sess s. unfold Enhanced.get_real_time_updates.
    destruct (Enhanced.user_email sess) as [e|]; cbn [snd].
    + split.
      * rewrite length_map. apply length_lastn.
      * intros _ _. rewrite map_map. reflexivity.
    + split; [simpl; lia|]. intros ? ?. discriminate.
Qed.

(** The feed of the enhanced service on a ledger of one entry, seen
    through C8. *)
Lemma update_feeds_bounded_witness :
  let u :=
    Enhanced.Update "u1" "toilet_001" "Central Park Public Toilet" "Clean"
      "Moderate" 70 None None 0 "status_change" (Some "🚻") in
  let s := Enhanced.State (EnhancedSystem.initial_toilets 0) [u] [] in
  map Enhanced.timestamp
    (Enhanced.get_real_time_updates EnhancedSystem.cleaner_session s).2
  = map Enhanced.timestamp (lastn 15 (Enhanced.real_time_updates s)).
Proof.
  intros u s.
  apply (proj2 (proj2 update_feeds_bounded EnhancedSystem.cleaner_session s)
           "cleaner@example.com").
  reflexivity.
Defined.

(** C8 as stated fails.  In the enhanced service an entry written 1000
    minutes ago is returned, so for the window w = 30 an entry older than w
    comes back; in the staff service the window is fixed at 30 minutes, so
    for w = 5 an entry written 10 minutes ago comes back. *)
Lemma feed_returns_entry_older_than_window :
  (let u :=
     Enhanced.Update "u1" "toilet_001" "Central Park Public Toilet" "Clean"
       "Moderate" 70 None None 0 "status_change" (Some "🚻") in
   let s := Enhanced.State (EnhancedSystem.initial_toilets 0) [u] [] in
   let now := 1000 * microseconds_per_minute in
   let w := 30 in
   exists v,
     v ∈ (Enhanced.get_real_time_updates EnhancedSystem.cleaner_session s).2
     /\ ~ (now - Enhanced.timestamp v <= w * microseconds_per_minute))
  /\ (let u :=
        Staff.Update "u1" "toilet_001" "Central Park Public Toilet"
          "cleaning_started" "Dirty" "Cleaning in Progress" 25
          "Cleaning Staff" 0 "🚻" in
      let s := Staff.State (StaffSystem.example_toilets 0) [u] [u] in
      let now := 10 * microseconds_per_minute in
      let w := 5 in
      exists v,
        v ∈ (Staff.get_staff_updates now (Some StaffSystem.cleaner) s).2
        /\ ~ (now - Staff.timestamp v.1 <= w * microseconds_per_minute)).
Proof.
  split.
  - eexists. split; [apply list_elem_of_here|]. vm_compute. intros H. by apply H.
  - eexists. split; [apply list_elem_of_here|]. vm_compute. intros H. by apply H.
Qed.

(** ** The webhook *)

Section WebhookFacts.
Import Public.
Variable fromisoformat : string -> option datetime.

Lemma has_required_fields (data : gmap string jval) :
  forallb (has_field data) required_fields = true
  <-> forall field, field ∈ required_fields -> is_Some (data !! field).
Proof.
  rewrite forallb_forall. unfold has_field. split.
  - intros H field Hin. apply list_elem_of_In in Hin.
    specialize (H field Hin). destruct (data !! field); [eauto|discriminate].
  - intros H field Hin. apply list_elem_of_In in Hin.
    destruct (H field Hin) as [v ->]. reflexivity.
Qed.

Lemma misses_required_field (data : gmap string jval) :
  forallb (has_field data) required_fields = false
  <-> exists field, field ∈ required_fields /\ data !! field = None.
Proof.
  split.
  - intros H. induction required_fields as [|f l IH]; [discriminate|].
    simpl in H. apply andb_false_iff in H as [H|H].
    + exists f. split; [apply list_elem_of_here|].
      unfold has_field in H. by destruct (data !! f).
    + destruct (IH H) as (field & Hin & Hnone).
      exists field. split; [by apply list_elem_of_further | exact Hnone].
  - intros (field & Hin & Hnone).
    destruct (forallb (has_field data) required_fields) eqn:E;
      [|reflexivity].
    apply has_required_fields with (field := field) in E; [|exact Hin].
    rewrite Hnone in E. by destruct E.
Qed.

(** The three outcomes of the handler. *)
Lemma receive_update_cases uuid4 now data s :
  let r := receive_update fromisoformat uuid4 now data s in
  (forallb (has_field data) required_fields = false
   /\ r = (s, Response 400 "Missing required fields"))
  \/ (forallb (has_field data) required_fields = true
      /\ (exists str,
            data !! "timestamp" = Some (JStr str)
            /\ fromisoformat str = None)
      /\ r = (s, Response 500 "Invalid isoformat string"))
  \/ (forallb (has_field data) required_fields = true
      /\ (forall str,
            data !! "timestamp" = Some (JStr str) ->
            is_Some (fromisoformat str))
      /\ exists u,
           r = (State (real_time_updates s ++ [u]),
                Response 200 "Update received successfully")
           /\ new_score u = default (JNum 0) (data !! "new_score")).
Proof.
  intros r. subst r. unfold receive_update.
  destruct (forallb (has_field data) required_fields) eqn:E; [|by left].
  right. cbn [negb].
  pose proof E as E'. cbn [forallb required_fields] in E'.
  unfold has_field in E'.
  destruct (data !! "toilet_id"); [|discriminate].
  destruct (data !! "toilet_name"); [|discriminate].
  destruct (data !! "type"); [|discriminate].
  destruct (data !! "previous_status"); [|discriminate].
  destruct (data !! "new_status"); [|discriminate].
  destruct (data !! "timestamp") as [ts|]; [|discriminate].
  destruct (parse_timestamp fromisoformat now ts) as [t|] eqn:Hp.
  - right. split; [reflexivity|]. split.
    + intros str [= ->]. simpl in Hp. rewrite Hp. eauto.
    + eexists. split; reflexivity.
  - left. split; [reflexivity|]. split; [|reflexivity].
    destruct ts; try discriminate. simpl in Hp. eauto.
Qed.
End WebhookFacts.

(** C9 (amended).  The webhook answers 400, recording nothing, exactly when
    one of toilet_id, toilet_name, type, previous_status, new_status and
    timestamp is missing; new_score is not required and defaults to 0.  A
    payload is accepted (200) exactly when it holds those six fields and
    its timestamp, if a string, parses as an ISO date; it is then recorded
    as one update. *)
Theorem webhook_required_fields fromisoformat uuid4 now
    (data : gmap string Public.jval) s :
  let r := Public.receive_update fromisoformat uuid4 now data s in
  (code r.2 = 400
   <-> exists field,
         field ∈ Public.required_fields /\ data !! field = None)
  /\ (code r.2 = 400 -> r.1 = s)
  /\ (code r.2 = 200
      <-> (forall field,
             field ∈ Public.required_fields -> is_Some (data !! field))
          /\ (forall str,
                data !! "timestamp" = Some (Public.JStr str) ->
                is_Some (fromisoformat str)))
  /\ (code r.2 = 200 ->
      exists u,
        Public.real_time_updates r.1
          = (Public.real_time_updates s ++ [u])%list
        /\ Public.new_score u
           = default (Public.JNum 0) (data !! "new_score")).
Proof.
  intros r.
  destruct (receive_update_cases fromisoformat uuid4 now data s)
    as [[E Hr] | [(E & (str & Hts & Hnone) & Hr) | (E & Hparse & u & Hr & Hu)]];
    fold r in Hr; rewrite Hr; cbn [fst snd code].
  - split; [|split; [|split]].
    + split; [intros _; by apply misses_required_field | reflexivity].
    + reflexivity.
    + split; [discriminate|]. intros [Hall _].
      apply has_required_fields in Hall. congruence.
    + discriminate.
  - split; [|split; [|split]].
    + split; [discriminate|]. intros H.
      apply misses_required_field in H. congruence.
    + discriminate.
    + split; [discriminate|]. intros [_ Hp].
      destruct (Hp str Hts) as [t Ht]. congruence.
    + discriminate.
  - split; [|split; [|split]].
    + split; [discriminate|]. intros H.
      apply misses_required_field in H. congruence.
    + discriminate.
    + split; [|reflexivity]. intros _.
      split; [by apply has_required_fields | exact Hparse].
    + intros _. exists u. split; [reflexivity | exact Hu].
Qed.

(** The payload of the staff service, seen through C9. *)
Lemma webhook_required_fields_witness :
  exists u,
    Public.real_time_updates
      (Public.receive_update Public.sample_fromisoformat "u1" 0
         Public.sample_payload (Public.State [])).1
    = ([] ++ [u])%list
    /\ Public.new_score u
       = default (Public.JNum 0) (Public.sample_payload !! "new_score").
Proof.
  apply (webhook_required_fields Public.sample_fromisoformat "u1" 0
           Public.sample_payload (Public.State [])).
  vm_compute. reflexivity.
Defined.

(** C9 as stated fails: the payload without new_score misses a field the
    specification requires, and the webhook answers 200 and records the
    update with score 0. *)
Lemma webhook_accepts_payload_without_new_score :
  let data := Public.sample_payload_without_score in
  let r :=
    Public.receive_update Public.sample_fromisoformat "u1" 0 data
      (Public.State []) in
  (exists field,
      field ∈ Public.spec_required_fields /\ data !! field = None)
  /\ code r.2 = 200
  /\ code r.2 <> 400
  /\ Public.new_score <$> Public.real_time_updates r.1
     = [Public.JNum 0].
Proof.
  intros data r. split.
  - exists "new_score". split; [|vm_compute; reflexivity].
    unfold Public.spec_required_fields. set_solver.
  - split; [vm_compute; reflexivity|].
    split; [vm_compute; discriminate | vm_compute; reflexivity].
Qed.

(** * Further properties *)

(** ** The simulator *)

Section Simulator.
Import Enhanced EnhancedSystem.

(** What one iteration does to the toilet it selected: nothing, or one
    edge with the update that describes it. *)
Lemma simulate_toilet_cases uuid4 now t g :
  (simulate_toilet uuid4 now t g).1 = (t, None)
  \/ exists t' e,
       (simulate_toilet uuid4 now t g).1 = (t', Some e)
       /\ simulator_edge (status t) (status t')
       /\ identity t' = identity t
       /\ cleaner_assigned t' = cleaner_assigned t
       /\ last_updated t' = Some now
       /\ toilet_id e = id t
       /\ previous_status e = status t
       /\ new_status e = status t'
       /\ new_score e = hygiene_score t'
       /\ timestamp e = now.
Proof.
  unfold simulate_toilet, rand_bind, rand_ret, simulator_edge.
  destruct (String.eqb_spec (status t) "Clean") as [Hc|Hc];
    [|destruct (String.eqb_spec (status t) "Moderate") as [Hm|Hm];
      [|destruct (String.eqb_spec (status t) "Dirty") as [Hd|Hd]]];
    repeat match goal with
           | |- context [if ?c then _ else _] => destruct c
           end;
    cbn [fst snd];
    first
      [ by left
      | right; eexists _, _; split; [reflexivity|];
        cbn; rewrite ?Hc, ?Hm, ?Hd;
        (split; [set_solver|]); done ].
Qed.



Lemma keep_last_50_last (l : list update) (e : update) :
  last (keep_last_50 (l ++ [e])) = Some e.
Proof.
  unfold keep_last_50, lastn. destruct (50 <? length (l ++ [e]))%nat.
  - rewrite length_app. cbn [length].
    rewrite drop_app_le by lia. apply last_snoc.
  - apply last_snoc.
Qed.

Lemma choice_index_lt (n : nat) (g : rng) :
  (0 < n)%nat -> ((choice_index n g).1 < n)%nat.
Proof.
  intros Hn. unfold choice_index, rand_bind, rand_ret, next_word.
  cbn [fst snd].
  pose proof (Z.mod_pos_bound (stream g (cursor g)) (Z.of_nat n)). lia.
Qed.

(** The shape of an iteration's result. *)
Lemma tick_cases uuid4 now s g :
  let s' := (simulate_real_time_updates uuid4 now s g).1 in
  (toilets_data s = [] /\ s' = s)
  \/ (toilets_data s' = toilets_data s
      /\ real_time_updates s' = keep_last_50 (real_time_updates s)
      /\ completion_threads s' = completion_threads s)
  \/ exists i t t' e,
       toilets_data s !! i = Some t
       /\ (simulate_toilet uuid4 now t
             (choice_index (length (toilets_data s)) g).2).1 = (t', Some e)
       /\ toilets_data s' = <[i := t']> (toilets_data s)
       /\ real_time_updates s' = keep_last_50 (real_time_updates s ++ [e])
       /\ completion_threads s' = completion_threads s.
Proof.
  intros s'. subst s'.
  unfold simulate_real_time_updates, rand_bind, rand_ret.
  set (i := (choice_index (length (toilets_data s)) g).1).
  set (g1 := (choice_index (length (toilets_data s)) g).2).
  destruct (toilets_data s !! i) as [t|] eqn:Hi.
  - right. cbn [fst snd].
    destruct (simulate_toilet_cases uuid4 now t g1)
      as [E | (t' & e & E & _)]; rewrite E; cbn [fst snd option_list].
    + left. cbn [toilets_data real_time_updates completion_threads].
      rewrite app_nil_r. split; [by apply list_insert_id|]. by split.
    + right. exists i, t, t', e.
      cbn [toilets_data real_time_updates completion_threads]. done.
  - left. split; [|reflexivity].
    destruct (toilets_data s) as [|t0 l] eqn:E; [reflexivity|].
    apply lookup_ge_None in Hi.
    pose proof (choice_index_lt (length (t0 :: l)) g ltac:(simpl; lia)).
    fold i in H. lia.
Qed.

(** The amenities and bounds each edge leaves. *)
Lemma simulate_toilet_effects uuid4 now t g t' e :
  (simulate_toilet uuid4 now t g).1 = (t', Some e) ->
  (status t' = "Clean" ->
     water_available t' = true /\ soap_available t' = true
     /\ paper_available t' = true /\ last_cleaned t' = now
     /\ hygiene_score t' <= 95)
  /\ (status t' = "Dirty" ->
       soap_available t' = false /\ last_cleaned t' = last_cleaned t
       /\ 10 <= hygiene_score t')
  /\ (status t' = "Moderate" ->
       last_cleaned t' = last_cleaned t
       /\ (status t = "Clean" ->
           water_available t' = water_available t
           /\ 50 <= hygiene_score t')
       /\ (status t = "Dirty" ->
           water_available t' = true /\ hygiene_score t' <= 60)).
Proof.
  unfold simulate_toilet, rand_bind, rand_ret.
  destruct (String.eqb_spec (status t) "Clean") as [Hc|Hc];
    [|destruct (String.eqb_spec (status t) "Moderate") as [Hm|Hm];
      [|destruct (String.eqb_spec (status t) "Dirty") as [Hd|Hd]]];
    repeat match goal with
           | |- context [if ?c then _ else _] => destruct c
           end;
    cbn [fst snd]; intros [= <- <-]; cbn;
    repeat split; intros; try discriminate; try congruence; try lia.
Qed.
End Simulator.



(** X2.  When an iteration of the simulator changes a toilet, the change is
    one of the five edges Clean-Moderate, Moderate-Clean, Moderate-Dirty,
    Dirty-Moderate, Dirty-Clean, and the newest ledger entry describes it:
    the toilet's id, its status before and after, and its new score. *)
Theorem tick_records_its_transition uuid4 now s g i t t' :
  Enhanced.toilets_data s !! i = Some t ->
  Enhanced.toilets_data
    (Enhanced.simulate_real_time_updates uuid4 now s g).1 !! i = Some t' ->
  t' <> t ->
  EnhancedSystem.simulator_edge (Enhanced.status t) (Enhanced.status t')
  /\ exists e,
       last (Enhanced.real_time_updates
               (Enhanced.simulate_real_time_updates uuid4 now s g).1)
         = Some e
       /\ Enhanced.toilet_id e = Enhanced.id t
       /\ Enhanced.previous_status e = Enhanced.status t
       /\ Enhanced.new_status e = Enhanced.status t'
       /\ Enhanced.new_score e = Enhanced.hygiene_score t'
       /\ Enhanced.timestamp e = now.
Proof.
  intros Hi Hi' Hne.
  destruct (tick_cases uuid4 now s g)
    as [[_ Hs] | [(Ht & _) | (j & tj & tj' & e & Hj & E & Ht & Hl & _)]].
  - rewrite Hs in Hi'. congruence.
  - rewrite Ht in Hi'. congruence.
  - rewrite Ht in Hi'. destruct (decide (j = i)) as [->|Hji].
    + rewrite list_lookup_insert_eq in Hi' by (by eapply lookup_lt_Some).
      assert (tj = t) as -> by congruence.
      assert (tj' = t') as -> by congruence.
      destruct (simulate_toilet_cases uuid4 now t
                  (choice_index (length (Enhanced.toilets_data s)) g).2)
        as [E' | (t2 & e2 & E' & Hedge & _ & _ & _ & H1 & H2 & H3 & H4 & H5)];
        rewrite E in E'; [discriminate|].
      injection E' as <- <-. split; [exact Hedge|].
      exists e. rewrite Hl. split; [apply keep_last_50_last|]. done.
    + rewrite list_lookup_insert_ne in Hi' by done. congruence.
Qed.

Lemma tick_records_its_transition_witness :
  let s := Enhanced.State [EnhancedSystem.scenario_toilet 0] [] [] in
  let g := EnhancedSystem.replay_rng [0; 0; 12] in
  exists t',
    Enhanced.toilets_data
      (Enhanced.simulate_real_time_updates "u1" 5 s g).1 !! 0%nat = Some t'
    /\ EnhancedSystem.simulator_edge "Clean" (Enhanced.status t')
    /\ exists e,
         last (Enhanced.real_time_updates
                 (Enhanced.simulate_real_time_updates "u1" 5 s g).1)
           = Some e
         /\ Enhanced.toilet_id e = "F1"
         /\ Enhanced.previous_status e = "Clean"
         /\ Enhanced.new_status e = Enhanced.status t'
         /\ Enhanced.new_score e = Enhanced.hygiene_score t'
         /\ Enhanced.timestamp e = 5.
Proof.
  intros s g. eexists. split; [reflexivity|].
  apply (tick_records_its_transition "u1" 5 s g 0%nat
           (EnhancedSystem.scenario_toilet 0)).
  - reflexivity.
  - reflexivity.
  - discriminate.
Defined.

(** X3.  An iteration of the simulator changes at most one toilet and no
    pending completion; the registry keeps its length. *)
Theorem tick_changes_one_toilet uuid4 now s g :
  let s' := (Enhanced.simulate_real_time_updates uuid4 now s g).1 in
  length (Enhanced.toilets_data s') = length (Enhanced.toilets_data s)
  /\ Enhanced.completion_threads s' = Enhanced.completion_threads s
  /\ exists i,
       forall j, j <> i ->
         Enhanced.toilets_data s' !! j = Enhanced.toilets_data s !! j.
Proof.
  intros s'.
  destruct (tick_cases uuid4 now s g)
    as [[_ Hs] | [(Ht & _ & Hc) | (i & t & t' & e & _ & _ & Ht & _ & Hc)]];
    fold s' in Hs || (fold s' in Ht; fold s' in Hc).
  - rewrite Hs. split; [reflexivity|]. split; [reflexivity|]. by exists 0%nat.
  - rewrite Ht, Hc. split; [reflexivity|]. split; [reflexivity|].
    by exists 0%nat.
  - rewrite Ht, Hc. split; [apply length_insert|]. split; [reflexivity|].
    exists i. intros j Hj. by apply list_lookup_insert_ne.
Qed.

(** X4.  Whenever the simulator moves a toilet to Clean, water, soap and
    paper are available, the toilet is stamped as cleaned now and its score
    is at most 95; whenever it moves a toilet to Dirty, soap is gone and
    the score is at least 10; a degradation from Clean leaves at least 50,
    a recovery from Dirty to Moderate restores water and leaves at most
    60. *)
Theorem tick_edge_effects uuid4 now s g i t t' :
  Enhanced.toilets_data s !! i = Some t ->
  Enhanced.toilets_data
    (Enhanced.simulate_real_time_updates uuid4 now s g).1 !! i = Some t' ->
  t' <> t ->
  (Enhanced.status t' = "Clean" ->
     Enhanced.water_available t' = true /\ Enhanced.soap_available t' = true
     /\ Enhanced.paper_available t' = true
     /\ Enhanced.last_cleaned t' = now
     /\ Enhanced.hygiene_score t' <= 95)
  /\ (Enhanced.status t' = "Dirty" ->
       Enhanced.soap_available t' = false
       /\ Enhanced.last_cleaned t' = Enhanced.last_cleaned t
       /\ 10 <= Enhanced.hygiene_score t')
  /\ (Enhanced.status t' = "Moderate" ->
       Enhanced.last_cleaned t' = Enhanced.last_cleaned t
       /\ (Enhanced.status t = "Clean" ->
           Enhanced.water_available t' = Enhanced.water_available t
           /\ 50 <= Enhanced.hygiene_score t')
       /\ (Enhanced.status t = "Dirty" ->
           Enhanced.water_available t' = true
           /\ Enhanced.hygiene_score t' <= 60)).
Proof.
  intros Hi Hi' Hne.
  destruct (tick_cases uuid4 now s g)
    as [[_ Hs] | [(Ht & _) | (j & tj & tj' & e & Hj & E & Ht & _)]].
  - rewrite Hs in Hi'. congruence.
  - rewrite Ht in Hi'. congruence.
  - rewrite Ht in Hi'. destruct (decide (j = i)) as [->|Hji].
    + rewrite list_lookup_insert_eq in Hi' by (by eapply lookup_lt_Some).
      assert (tj = t) as -> by congruence.
      assert (tj' = t') as -> by congruence.
      by eapply simulate_toilet_effects.
    + rewrite list_lookup_insert_ne in Hi' by done. congruence.
Qed.

Lemma tick_edge_effects_witness :
  let s := Enhanced.State [EnhancedSystem.scenario_toilet 0] [] [] in
  let g := EnhancedSystem.replay_rng [0; 0; 12] in
  exists t',
    Enhanced.toilets_data
      (Enhanced.simulate_real_time_updates "u1" 5 s g).1 !! 0%nat = Some t'
    /\ Enhanced.water_available t' = true
    /\ 50 <= Enhanced.hygiene_score t'.
Proof.
  intros s g. eexists. split; [reflexivity|].
  destruct (tick_edge_effects "u1" 5 s g 0%nat
              (EnhancedSystem.scenario_toilet 0) _ eq_refl eq_refl
              ltac:(discriminate)) as (_ & _ & H).
  destruct (H eq_refl) as (_ & Hc & _). exact (Hc eq_refl).
Defined.

(** ** The registry *)

Section Registry.
Import Enhanced EnhancedSystem.

Lemma fmap_insert_same {A B : Type} (f : A -> B) (l : list A) i x y :
  l !! i = Some x -> f y = f x -> f <$> <[i := y]> l = f <$> l.
Proof.
  intros Hi Hf. rewrite list_fmap_insert. apply list_insert_id.
  rewrite list_lookup_fmap, Hi. simpl. by rewrite Hf.
Qed.

Lemma step_keeps_identity uuid4 now a s :
  identity <$> toilets_data (step uuid4 now a s)
  = identity <$> toilets_data s.
Proof.
  destruct a as [g | sess d | k g | sess tid data]; cbn [step].
  - destruct (tick_cases uuid4 now s g)
      as [[_ Hs] | [(Ht & _) | (i & t & t' & e & Hi & E & Ht & _)]].
    + by rewrite Hs.
    + by rewrite Ht.
    + rewrite Ht. apply (fmap_insert_same _ _ _ t); [exact Hi|].
      destruct (simulate_toilet_cases uuid4 now t
                  (choice_index (length (toilets_data s)) g).2)
        as [E' | (t2 & e2 & E' & _ & Hid & _)];
        rewrite E in E'; [discriminate|].
      by injection E' as <- <-.
  - unfold start_cleaning.
    repeat match goal with
           | |- context [match ?x with _ => _ end] => destruct x eqn:?
           end; try reflexivity.
    cbn [fst toilets_data].
    match goal with
    | H : find_toilet _ _ = Some _ |- _ =>
        apply list_find_Some in H as (Hi & _ & _)
    end.
    by eapply fmap_insert_same.
  - unfold complete_cleaning, rand_bind, rand_ret.
    destruct (completion_threads s !! k) as [c|]; [|reflexivity].
    destruct (toilets_data s !! c_toilet c) as [t|] eqn:Hi; [|reflexivity].
    cbn [fst toilets_data]. by eapply fmap_insert_same.
  - unfold update_toilet_status.
    repeat match goal with
           | |- context [match ?x with _ => _ end] => destruct x eqn:?
           end; try reflexivity.
    cbn [fst toilets_data].
    match goal with
    | H : find_toilet _ _ = Some _ |- _ =>
        apply list_find_Some in H as (Hi & _ & _)
    end.
    by eapply fmap_insert_same.
Qed.

Lemma find_toilet_insert tid l i t t' :
  find_toilet tid l = Some (i, t) ->
  id t' = id t ->
  find_toilet tid (<[i := t']> l) = Some (i, t').
Proof.
  intros Hf Hid. apply list_find_Some in Hf as (Hi & Hp & Hlt).
  apply list_find_Some. split; [|split].
  - apply list_lookup_insert_eq. by eapply lookup_lt_Some.
  - congruence.
  - intros j y Hj Hji. rewrite list_lookup_insert_ne in Hj by lia.
    by eapply Hlt.
Qed.
End Registry.

(** X5.  No run of the enhanced service adds, removes, reorders or renames
    a facility: id, name, address, type, occupancy, schedule and icon of
    every registry entry stay what they were. *)
Theorem registry_identity_invariant trace s :
  EnhancedSystem.identity
    <$> Enhanced.toilets_data (EnhancedSystem.run trace s)
  = EnhancedSystem.identity <$> Enhanced.toilets_data s.
Proof.
  revert s. induction trace as [|[[uuid4 now] a] trace IH]; intros s.
  - reflexivity.
  - cbn [EnhancedSystem.run]. rewrite IH. apply step_keeps_identity.
Qed.

(** ** Requests of the enhanced service *)

Section EnhancedRequests.
Import Enhanced EnhancedSystem.

(** Every 200 answer of the status update comes from its last branch. *)
Lemma update_toilet_status_success uuid4 now sess tid data s :
  code (update_toilet_status uuid4 now sess tid data s).2 = 200 ->
  exists email new_status i t,
    user_email sess = Some email
    /\ role_in sess ["cleaner"; "admin"] = true
    /\ req_status data = Some new_status
    /\ str_in new_status ["Clean"; "Moderate"; "Dirty"] = true
    /\ find_toilet tid (toilets_data s) = Some (i, t).
Proof.
  unfold update_toilet_status.
  destruct (user_email sess) as [email|] eqn:He; [|discriminate].
  destruct (role_in sess ["cleaner"; "admin"]) eqn:Hr; [|discriminate].
  cbn [negb].
  destruct (req_status data) as [new_status|] eqn:Hd; [|discriminate].
  destruct (String.eqb new_status ""); [discriminate|]. cbn [orb].
  destruct (str_in new_status ["Clean"; "Moderate"; "Dirty"]) eqn:Hin;
    [|discriminate].
  cbn [negb].
  destruct (find_toilet tid (toilets_data s)) as [[i t]|] eqn:Hf;
    [|discriminate].
  intros _. by exists email, new_status, i, t.
Qed.

Lemma update_toilet_status_accepts uuid4 now sess email tid data new_status
    s i t :
  user_email sess = Some email ->
  role_in sess ["cleaner"; "admin"] = true ->
  req_status data = Some new_status ->
  str_in new_status ["Clean"; "Moderate"; "Dirty"] = true ->
  find_toilet tid (toilets_data s) = Some (i, t) ->
  update_toilet_status uuid4 now sess tid data s =
    (State
       (<[i := set_cleaner_assigned (Some email)
                 (set_last_updated now
                    (set_last_cleaned now
                       (set_hygiene_score
                          (py_or (req_hygiene_score data) (hygiene_score t))
                          (set_status new_status t))))]>
          (toilets_data s))
       (real_time_updates s ++
          [Update uuid4 tid (name t) (status t) new_status
             (py_or (req_hygiene_score data) (hygiene_score t))
             (user_name sess) (Some email) now "cleaned" None])
       (completion_threads s),
     Response 200 "Toilet status updated successfully").
Proof.
  intros He Hr Hd Hin Hf. unfold update_toilet_status.
  rewrite He, Hr, Hd, Hin, Hf. cbn [negb].
  destruct (String.eqb_spec new_status "") as [->|_]; [discriminate|].
  reflexivity.
Qed.
End EnhancedRequests.

Lemma enhanced_rejections uuid4 now sess s :
  (forall tid data,
      let r := Enhanced.update_toilet_status uuid4 now sess tid data s in
      code r.2 <> 200 -> r.1 = s /\ code r.2 ∈ [400; 401; 403; 404])
  /\ (forall d,
         let r := Enhanced.start_cleaning uuid4 now sess d s in
         code r.2 <> 200 -> r.1 = s /\ code r.2 ∈ [400; 401; 403; 404]).
Proof.
  split.
  - intros tid data r. subst r. unfold Enhanced.update_toilet_status.
    repeat match goal with
           | |- context [match ?x with _ => _ end] => destruct x
           end; cbn [fst snd code]; intros H;
      try (split; [reflexivity | set_solver]); congruence.
  - intros d r. subst r. unfold Enhanced.start_cleaning.
    repeat match goal with
           | |- context [match ?x with _ => _ end] => destruct x
           end; cbn [fst snd code]; intros H;
      try (split; [reflexivity | set_solver]); congruence.
Qed.


(** X6.  A request the enhanced service does not answer with 200 changes
    nothing: update-status and start-cleaning leave registry, ledger and
    pending completions as they were, and the answer is one of 400, 401,
    403, 404. *)
Theorem enhanced_rejections_change_nothing uuid4 now sess s :
  (forall tid data,
      let r := Enhanced.update_toilet_status uuid4 now sess tid data s in
      code r.2 <> 200 -> r.1 = s /\ code r.2 ∈ [400; 401; 403; 404])
  /\ (forall d,
         let r := Enhanced.start_cleaning uuid4 now sess d s in
         code r.2 <> 200 -> r.1 = s /\ code r.2 ∈ [400; 401; 403; 404]).
Proof. apply enhanced_rejections. Qed.

Lemma enhanced_rejections_change_nothing_witness :
  let s := EnhancedSystem.initial_state 0 in
  let r :=
    Enhanced.start_cleaning "u1" 0 EnhancedSystem.cleaner_session
      (Some "toilet_003") s in
  r.1 = s /\ code r.2 ∈ [400; 401; 403; 404].
Proof.
  intros s r.
  apply (proj2 (enhanced_rejections_change_nothing "u1" 0
                  EnhancedSystem.cleaner_session s) (Some "toilet_003")).
  vm_compute. discriminate.
Defined.

(** X7.  Every accepted direct status update, whatever status it sets,
    assigns the toilet to the caller, stamps it as cleaned at the time of
    the call, and appends one entry of type cleaned that carries the
    status the toilet had before; the other toilets and the pending
    completions are untouched. *)
Theorem update_toilet_status_effects uuid4 now sess tid data s :
  let r := Enhanced.update_toilet_status uuid4 now sess tid data s in
  code r.2 = 200 ->
  exists i t t' e,
    Enhanced.find_toilet tid (Enhanced.toilets_data s) = Some (i, t)
    /\ Enhanced.toilets_data r.1 = <[i := t']> (Enhanced.toilets_data s)
    /\ Enhanced.req_status data = Some (Enhanced.status t')
    /\ Enhanced.cleaner_assigned t' = Enhanced.user_email sess
    /\ Enhanced.last_cleaned t' = now
    /\ Enhanced.real_time_updates r.1
       = (Enhanced.real_time_updates s ++ [e])%list
    /\ Enhanced.update_type e = "cleaned"
    /\ Enhanced.previous_status e = Enhanced.status t
    /\ Enhanced.new_status e = Enhanced.status t'
    /\ Enhanced.new_score e = Enhanced.hygiene_score t'
    /\ Enhanced.completion_threads r.1 = Enhanced.completion_threads s.
Proof.
  intros r H. subst r.
  apply update_toilet_status_success in H
    as (email & new_status & i & t & He & Hr & Hd & Hin & Hf).
  rewrite (update_toilet_status_accepts _ _ _ email _ _ new_status _ i t)
    by done.
  eexists i, t, _, _. cbn [fst Enhanced.toilets_data
    Enhanced.real_time_updates Enhanced.completion_threads].
  split; [exact Hf|]. split; [reflexivity|]. by rewrite He, Hd.
Qed.

Lemma update_toilet_status_effects_witness :
  let s := EnhancedSystem.initial_state 0 in
  let r :=
    Enhanced.update_toilet_status "u1" 7 EnhancedSystem.cleaner_session
      "toilet_003" (Enhanced.StatusRequest (Some "Dirty") None) s in
  exists i t t' e,
    Enhanced.find_toilet "toilet_003" (Enhanced.toilets_data s) = Some (i, t)
    /\ Enhanced.toilets_data r.1 = <[i := t']> (Enhanced.toilets_data s)
    /\ Some "Dirty" = Some (Enhanced.status t')
    /\ Enhanced.cleaner_assigned t' = Some "cleaner@example.com"
    /\ Enhanced.last_cleaned t' = 7
    /\ Enhanced.real_time_updates r.1
       = (Enhanced.real_time_updates s ++ [e])%list
    /\ Enhanced.update_type e = "cleaned"
    /\ Enhanced.previous_status e = Enhanced.status t
    /\ Enhanced.new_status e = Enhanced.status t'
    /\ Enhanced.new_score e = Enhanced.hygiene_score t'
    /\ Enhanced.completion_threads r.1 = Enhanced.completion_threads s.
Proof.
  intros s r.
  apply (update_toilet_status_effects "u1" 7 EnhancedSystem.cleaner_session
           "toilet_003" (Enhanced.StatusRequest (Some "Dirty") None) s).
  reflexivity.
Defined.

(** X8.  A direct status update takes the toilet over: once the update of
    one user is accepted, start-cleaning on that toilet by a cleaner with
    another email is refused with 403, whoever was assigned before, and
    start-cleaning by the updating user, if a cleaner, is accepted. *)
Theorem status_update_takes_toilet_over uuid4 now sess tid data s
    uuid4' now' sess' email' :
  let s1 := (Enhanced.update_toilet_status uuid4 now sess tid data s).1 in
  code (Enhanced.update_toilet_status uuid4 now sess tid data s).2 = 200 ->
  tid <> "" ->
  Enhanced.user_email sess' = Some email' ->
  Enhanced.user_role sess' = Some "cleaner" ->
  (Enhanced.user_email sess <> Some email' ->
   Enhanced.start_cleaning uuid4' now' sess' (Some tid) s1
   = (s1, Response 403 "Toilet not assigned to you"))
  /\ (Enhanced.user_email sess = Some email' ->
      code (Enhanced.start_cleaning uuid4' now' sess' (Some tid) s1).2
      = 200).
Proof.
  intros s1 H Htid He' Hr'. subst s1.
  apply update_toilet_status_success in H
    as (email & new_status & i & t & He & Hr & Hd & Hin & Hf).
  rewrite (update_toilet_status_accepts _ _ _ email _ _ new_status _ i t)
    by done.
  cbn [fst].
  pose proof (find_toilet_insert tid _ i t
                (Enhanced.set_cleaner_assigned (Some email)
                   (Enhanced.set_last_updated now
                      (Enhanced.set_last_cleaned now
                         (Enhanced.set_hygiene_score
                            (py_or (Enhanced.req_hygiene_score data)
                               (Enhanced.hygiene_score t))
                            (Enhanced.set_status new_status t)))))
                Hf eq_refl) as Hf'.
  split.
  - intros Hne. unfold Enhanced.start_cleaning at 1.
    rewrite He', Hr'. cbn [option_string_eqb Enhanced.toilets_data].
    rewrite String.eqb_refl. cbn [negb].
    destruct (String.eqb_spec tid ""); [contradiction|].
    rewrite Hf'. cbn [Enhanced.cleaner_assigned Enhanced.set_cleaner_assigned
                      option_string_eqb].
    destruct (String.eqb_spec email email') as [->|_]; [congruence|].
    reflexivity.
  - intros Heq.
    assert (email = email') as -> by congruence.
    erewrite start_cleaning_accepts;
      [reflexivity | exact He' | exact Hr' | exact Htid
      | cbn [Enhanced.toilets_data]; exact Hf' | reflexivity].
Qed.

Lemma status_update_takes_toilet_over_witness :
  let admin :=
    Enhanced.Session (Some "admin@example.com") (Some "admin")
      (Some "System Admin") in
  let s1 :=
    (Enhanced.update_toilet_status "u1" 7 admin "toilet_001"
       (Enhanced.StatusRequest (Some "Dirty") (Some 20))
       (EnhancedSystem.initial_state 0)).1 in
  Enhanced.start_cleaning "u2" 8 EnhancedSystem.cleaner_session
    (Some "toilet_001") s1
  = (s1, Response 403 "Toilet not assigned to you").
Proof.
  intros admin s1.
  apply (status_update_takes_toilet_over "u1" 7 admin "toilet_001"
           (Enhanced.StatusRequest (Some "Dirty") (Some 20))
           (EnhancedSystem.initial_state 0) "u2" 8
           EnhancedSystem.cleaner_session "cleaner@example.com").
  - reflexivity.
  - discriminate.
  - reflexivity.
  - reflexivity.
  - discriminate.
Defined.

(** ** Completion threads of the enhanced service *)

(** X9.  When a sleeping completion wakes, whatever the toilet's status is
    by then, the toilet becomes Clean with a score in [80, 95] and is
    stamped as cleaned now; one entry is appended that gives "In Progress"
    as the previous status; exactly this completion leaves the pending
    ones. *)
Theorem completion_thread_effects uuid4 now k s g c t :
  Enhanced.completion_threads s !! k = Some c ->
  Enhanced.toilets_data s !! Enhanced.c_toilet c = Some t ->
  let s' := (Enhanced.complete_cleaning uuid4 now k s g).1 in
  exists t' e,
    Enhanced.toilets_data s'
      = <[Enhanced.c_toilet c := t']> (Enhanced.toilets_data s)
    /\ Enhanced.status t' = "Clean"
    /\ 80 <= Enhanced.hygiene_score t' <= 95
    /\ Enhanced.last_cleaned t' = now
    /\ Enhanced.real_time_updates s'
       = (Enhanced.real_time_updates s ++ [e])%list
    /\ Enhanced.toilet_id e = Enhanced.c_toilet_id c
    /\ Enhanced.previous_status e = "In Progress"
    /\ Enhanced.new_status e = "Clean"
    /\ Enhanced.new_score e = Enhanced.hygiene_score t'
    /\ Enhanced.completion_threads s'
       = delete k (Enhanced.completion_threads s)
    /\ S (length (Enhanced.completion_threads s'))
       = length (Enhanced.completion_threads s).
Proof.
  intros Hk Ht s'. subst s'.
  unfold Enhanced.complete_cleaning, rand_bind, rand_ret. rewrite Hk, Ht.
  cbn [fst snd Enhanced.toilets_data Enhanced.real_time_updates
       Enhanced.completion_threads].
  eexists _, _. split; [reflexivity|].
  cbn [Enhanced.status Enhanced.hygiene_score Enhanced.last_cleaned
       Enhanced.set_status Enhanced.set_hygiene_score
       Enhanced.set_last_cleaned Enhanced.set_last_updated
       Enhanced.toilet_id Enhanced.previous_status Enhanced.new_status
       Enhanced.new_score].
  pose proof (randint_range 80 95 g ltac:(lia)).
  repeat split; try reflexivity; try lia.
  rewrite length_delete by eauto.
  apply lookup_lt_Some in Hk. lia.
Qed.

Lemma completion_thread_effects_witness :
  let s1 :=
    (Enhanced.start_cleaning "u1" 0 EnhancedSystem.cleaner_session
       (Some "toilet_001") (EnhancedSystem.initial_state 0)).1 in
  let s2 :=
    (Enhanced.update_toilet_status "u2" 1 EnhancedSystem.cleaner_session
       "toilet_001" (Enhanced.StatusRequest (Some "Dirty") (Some 20))
       s1).1 in
  let s' :=
    (Enhanced.complete_cleaning "u3" 30 0 s2
       (EnhancedSystem.constant_rng 3)).1 in
  Enhanced.status <$> Enhanced.toilets_data s2 !! 0%nat = Some "Dirty"
  /\ exists t' e,
       Enhanced.toilets_data s' = <[0%nat := t']> (Enhanced.toilets_data s2)
       /\ Enhanced.status t' = "Clean"
       /\ 80 <= Enhanced.hygiene_score t' <= 95
       /\ Enhanced.last_cleaned t' = 30
       /\ Enhanced.real_time_updates s'
          = (Enhanced.real_time_updates s2 ++ [e])%list
       /\ Enhanced.toilet_id e = "toilet_001"
       /\ Enhanced.previous_status e = "In Progress"
       /\ Enhanced.new_status e = "Clean"
       /\ Enhanced.new_score e = Enhanced.hygiene_score t'
       /\ Enhanced.completion_threads s'
          = delete 0%nat (Enhanced.completion_threads s2)
       /\ S (length (Enhanced.completion_threads s'))
          = length (Enhanced.completion_threads s2).
Proof.
  intros s1 s2 s'. split; [reflexivity|].
  eapply (completion_thread_effects "u3" 30 0%nat s2
            (EnhancedSystem.constant_rng 3)
            (Enhanced.Completion 0 "toilet_001" (Some "Cleaning Staff")
               (Some "cleaner@example.com"))).
  - reflexivity.
  - reflexivity.
Defined.

(** ** Priorities of the enhanced service *)

(** X10.  The priority of the enhanced service never drops when the hygiene
    score falls or the time since the last cleaning grows. *)
Theorem calculate_priority_monotone now (better worse : Enhanced.toilet) :
  Enhanced.hygiene_score worse <= Enhanced.hygiene_score better ->
  now - Enhanced.last_cleaned better <= now - Enhanced.last_cleaned worse ->
  (Enhanced.priority_rank (Enhanced.calculate_priority now better)
   <= Enhanced.priority_rank (Enhanced.calculate_priority now worse))%nat.
Proof.
  intros Hh Ht. unfold Enhanced.calculate_priority, hours_gt.
  repeat match goal with
         | |- context [?a <? ?b] => destruct (Z.ltb_spec a b)
         end; cbn; lia.
Qed.

Lemma calculate_priority_monotone_witness :
  let now := 10 * microseconds_per_hour in
  let better := EnhancedSystem.scenario_toilet now in
  let worse := Enhanced.set_hygiene_score 25 better in
  (Enhanced.priority_rank (Enhanced.calculate_priority now better)
   <= Enhanced.priority_rank (Enhanced.calculate_priority now worse))%nat.
Proof.
  intros now better worse.
  apply (calculate_priority_monotone now better worse).
  - vm_compute. discriminate.
  - vm_compute. discriminate.
Defined.

(** ** Sorting with reverse=True *)

Section ReverseSort.
Context {A : Type} (key : A -> nat * nat).

Lemma StronglySorted_reverse (R : A -> A -> Prop) (l : list A) :
  StronglySorted R l -> StronglySorted (fun x y => R y x) (reverse l).
Proof.
  induction 1 as [|x l Hl IH Hx]; [constructor|].
  rewrite reverse_cons. apply StronglySorted_app_2.
  - intros y z Hy Hz. rewrite elem_of_reverse in Hy.
    apply list_elem_of_singleton in Hz as ->.
    rewrite Forall_forall in Hx. by apply Hx.
  - exact IH.
  - repeat constructor.
Qed.

Lemma sort_by_key_reverse_perm (l : list A) : sort_by_key_reverse key l ≡ₚ l.
Proof.
  unfold sort_by_key_reverse.
  by rewrite reverse_Permutation, sort_by_key_perm, reverse_Permutation.
Qed.

Lemma sort_by_key_reverse_sorted (l : list A) :
  StronglySorted (key_ordered_reverse key) (sort_by_key_reverse key l).
Proof.
  unfold sort_by_key_reverse.
  apply (StronglySorted_reverse (key_ordered key)), sort_by_key_sorted.
Qed.

Lemma sort_by_key_reverse_stable (k : nat * nat) (l : list A) :
  filter (fun y => key y = k) (sort_by_key_reverse key l)
  = filter (fun y => key y = k) l.
Proof.
  unfold sort_by_key_reverse.
  by rewrite filter_reverse, sort_by_key_stable, filter_reverse,
    reverse_involutive.
Qed.
End ReverseSort.

(** X11.  For a cleaner or an admin the priority list of the enhanced
    service holds every toilet of the registry once, each with its
    priority, high before medium before low, and toilets of equal priority
    in registry order; any other role gets 403 and no list. *)
Theorem priority_toilets_high_first now sess email s :
  Enhanced.user_email sess = Some email ->
  let r := Enhanced.get_priority_toilets now sess s in
  (Enhanced.role_in sess ["cleaner"; "admin"] = false ->
   r = (Response 403 "Insufficient permissions", []))
  /\ (Enhanced.role_in sess ["cleaner"; "admin"] = true ->
      code r.1 = 200
      /\ r.2 ≡ₚ map (fun t => (t, Enhanced.calculate_priority now t))
                  (Enhanced.toilets_data s)
      /\ StronglySorted
           (fun x y =>
              (Enhanced.priority_rank y.2 <= Enhanced.priority_rank x.2)%nat)
           r.2
      /\ forall p,
           filter (fun x => priority_eqb x.2 p) r.2
           = filter (fun x => priority_eqb x.2 p)
               (map (fun t => (t, Enhanced.calculate_priority now t))
                  (Enhanced.toilets_data s))).
Proof.
  intros He r. subst r. unfold Enhanced.get_priority_toilets. rewrite He.
  split; intros Hr; rewrite Hr; cbn [negb fst snd code]; [reflexivity|].
  split; [reflexivity|]. split; [apply sort_by_key_reverse_perm|]. split.
  - eapply StronglySorted_weaken; [|apply sort_by_key_reverse_sorted].
    intros x y. unfold key_ordered_reverse, Enhanced.priority_key.
    rewrite key_le_spec. simpl. lia.
  - intros p.
    pose proof (sort_by_key_reverse_stable Enhanced.priority_key
                  (Enhanced.priority_rank p, 0%nat)
                  (map (fun t => (t, Enhanced.calculate_priority now t))
                     (Enhanced.toilets_data s))) as H.
    erewrite (list_filter_iff _ (fun x => Enhanced.priority_key x
                                           = (Enhanced.priority_rank p, 0%nat))),
      H.
    + apply list_filter_iff. intros [t q]. unfold Enhanced.priority_key.
      simpl. split; [intros [= E]|]; by destruct q, p.
    + intros [t q]. unfold Enhanced.priority_key. simpl.
      split; [|intros [= E]]; by destruct q, p.
Qed.

Lemma priority_toilets_high_first_witness :
  let now := 150 * microseconds_per_minute in
  let r :=
    Enhanced.get_priority_toilets now EnhancedSystem.cleaner_session
      (EnhancedSystem.initial_state 0) in
  map (fun x => (Enhanced.id x.1, x.2)) r.2
    = [("toilet_002", high); ("toilet_003", high); ("toilet_006", high);
       ("toilet_001", medium); ("toilet_005", medium); ("toilet_004", low)]
  /\ StronglySorted
       (fun x y =>
          (Enhanced.priority_rank y.2 <= Enhanced.priority_rank x.2)%nat)
       r.2.
Proof.
  intros now r. split; [vm_compute; reflexivity|].
  apply (priority_toilets_high_first now EnhancedSystem.cleaner_session
           "cleaner@example.com" (EnhancedSystem.initial_state 0) eq_refl).
  reflexivity.
Defined.

(** ** The toilet list *)

Lemma count_status_partition (l : list Enhanced.toilet) :
  (Enhanced.count_status "Clean" l + Enhanced.count_status "Moderate" l
   + Enhanced.count_status "Dirty" l
   + length
       (filter
          (fun t =>
             negb (str_in (Enhanced.status t) ["Clean"; "Moderate"; "Dirty"]))
          l)
   = length l)%nat.
Proof.
  unfold Enhanced.count_status.
  induction l as [|t l IH]; [reflexivity|].
  rewrite !filter_cons.
  assert (str_in (Enhanced.status t) ["Clean"; "Moderate"; "Dirty"]
          = (String.eqb (Enhanced.status t) "Clean"
             || (String.eqb (Enhanced.status t) "Moderate"
                 || (String.eqb (Enhanced.status t) "Dirty" || false))))
    as -> by reflexivity.
  destruct (String.eqb_spec (Enhanced.status t) "Clean") as [E|E];
    destruct (String.eqb_spec (Enhanced.status t) "Moderate") as [E'|E'];
    destruct (String.eqb_spec (Enhanced.status t) "Dirty") as [E''|E''];
    try congruence;
    repeat case_decide; try congruence; try done;
    cbn [length orb negb] in *; try lia; try tauto.
Qed.

(** X12.  The toilet list counts every registry entry in its total, and
    its summary of clean, moderate and dirty toilets misses exactly the
    toilets whose status is none of the three, such as a toilet that is
    being cleaned. *)
Theorem toilets_summary_counts now sess email s :
  Enhanced.user_email sess = Some email ->
  exists l sm,
    Enhanced.get_toilets now sess s
      = (Response 200 "", Some (l, length (Enhanced.toilets_data s), sm))
    /\ EnhancedSystem.identity <$> l
       = EnhancedSystem.identity <$> Enhanced.toilets_data s
    /\ (Enhanced.clean sm + Enhanced.moderate sm + Enhanced.dirty sm
        + length
            (filter
               (fun t =>
                  negb (str_in (Enhanced.status t)
                          ["Clean"; "Moderate"; "Dirty"]))
               (Enhanced.toilets_data s))
        = length (Enhanced.toilets_data s))%nat.
Proof.
  intros He. unfold Enhanced.get_toilets. rewrite He.
  eexists _, _. split; [by rewrite length_map|].
  cbn [Enhanced.clean Enhanced.moderate Enhanced.dirty].
  split; [|apply count_status_partition].
  induction (Enhanced.toilets_data s) as [|t l IH]; [reflexivity|].
  cbn [map fmap list_fmap]. f_equal. exact IH.
Qed.

Lemma toilets_summary_counts_witness :
  let s1 :=
    (Enhanced.start_cleaning "u1" 0 EnhancedSystem.cleaner_session
       (Some "toilet_001") (EnhancedSystem.initial_state 0)).1 in
  exists l sm,
    Enhanced.get_toilets 1 EnhancedSystem.cleaner_session s1
      = (Response 200 "", Some (l, length (Enhanced.toilets_data s1), sm))
    /\ EnhancedSystem.identity <$> l
       = EnhancedSystem.identity <$> Enhanced.toilets_data s1
    /\ (Enhanced.clean sm + Enhanced.moderate sm + Enhanced.dirty sm
        + length
            (filter
               (fun t =>
                  negb (str_in (Enhanced.status t)
                          ["Clean"; "Moderate"; "Dirty"]))
               (Enhanced.toilets_data s1))
        = length (Enhanced.toilets_data s1))%nat.
Proof.
  intros s1.
  apply (toilets_summary_counts 1 EnhancedSystem.cleaner_session
           "cleaner@example.com" s1).
  reflexivity.
Defined.

(** ** Requests of the staff service *)

Section StaffRequests.
Import Staff StaffSystem.

Lemma staff_find_toilet_insert d l i t t' :
  find_toilet d l = Some (i, t) ->
  id t' = id t ->
  find_toilet d (<[i := t']> l) = Some (i, t').
Proof.
  intros Hf Hid. apply list_find_Some in Hf as (Hi & Hp & Hlt).
  apply list_find_Some. split; [|split].
  - apply list_lookup_insert_eq. by eapply lookup_lt_Some.
  - congruence.
  - intros j y Hj Hji. rewrite list_lookup_insert_ne in Hj by lia.
    by eapply Hlt.
Qed.

Lemma staff_start_cleaning_success uuid4 now sess d s :
  code (start_cleaning uuid4 now sess d s).2 = 200 ->
  exists u i t,
    sess = Some u
    /\ find_toilet d (toilets_data s) = Some (i, t)
    /\ cleaner_assigned t = Some (user_email u).
Proof.
  unfold start_cleaning. destruct sess as [u|]; [|discriminate].
  destruct (find_toilet d (toilets_data s)) as [[i t]|] eqn:Hf;
    [|discriminate].
  destruct (cleaner_assigned t) as [a|] eqn:Ha; [|discriminate].
  cbn [option_string_eqb].
  destruct (String.eqb_spec a (user_email u)) as [->|]; [|discriminate].
  intros _. by exists u, i, t.
Qed.

Lemma staff_complete_cleaning_accepts uuid4 now u d s g i t :
  find_toilet d (toilets_data s) = Some (i, t) ->
  cleaner_assigned t = Some (user_email u) ->
  (complete_cleaning uuid4 now (Some u) d s g).1 =
    (State
       (<[i := set_last_cleaned now
                 (set_hygiene_score (randint 85 100 g).1
                    (set_status "Clean" t))]> (toilets_data s))
       (staff_updates s ++
          [Update uuid4 (id t) (name t) "cleaning_completed" (status t)
             "Clean" (randint 85 100 g).1 (user_name u) now
             (default "🚻" (icon t))])
       (sent_to_public s ++
          [Update uuid4 (id t) (name t) "cleaning_completed" (status t)
             "Clean" (randint 85 100 g).1 (user_name u) now
             (default "🚻" (icon t))]),
     Response 200 "Cleaning completed successfully").
Proof.
  intros Hf Ha. unfold complete_cleaning, rand_bind, rand_ret.
  rewrite Hf, Ha. cbn [option_string_eqb]. rewrite String.eqb_refl.
  reflexivity.
Qed.

Lemma staff_complete_cleaning_success uuid4 now sess d s g :
  code (complete_cleaning uuid4 now sess d s g).1.2 = 200 ->
  exists u i t,
    sess = Some u
    /\ find_toilet d (toilets_data s) = Some (i, t)
    /\ cleaner_assigned t = Some (user_email u).
Proof.
  unfold complete_cleaning, rand_bind, rand_ret.
  destruct sess as [u|]; [|discriminate].
  destruct (find_toilet d (toilets_data s)) as [[i t]|] eqn:Hf;
    [|discriminate].
  destruct (cleaner_assigned t) as [a|] eqn:Ha; [|discriminate].
  cbn [option_string_eqb].
  destruct (String.eqb_spec a (user_email u)) as [->|]; [|discriminate].
  intros _. by exists u, i, t.
Qed.

(** What a transition of the staff service does: nothing, or one toilet
    rewritten and one entry appended to the ledger and handed to the
    sender. *)
Lemma staff_step_shape uuid4 now a s :
  step uuid4 now a s = s
  \/ exists i t' e,
       step uuid4 now a s
       = State (<[i := t']> (toilets_data s)) (staff_updates s ++ [e])
           (sent_to_public s ++ [e])
       /\ entry_ok e.
Proof.
  destruct a as [sess d | sess d g]; cbn [step].
  - destruct (code (start_cleaning uuid4 now sess d s).2 =? 200) eqn:E.
    + apply Z.eqb_eq in E.
      apply staff_start_cleaning_success in E
        as (u & i & t & -> & Hf & Ha).
      rewrite (staff_start_cleaning_accepts _ _ _ _ _ i t) by done.
      right. eexists _, _, _. split; [reflexivity|]. by left.
    + left. revert E. unfold start_cleaning.
      repeat match goal with
             | |- context [match ?x with _ => _ end] => destruct x
             end; cbn [fst snd code]; try reflexivity.
      discriminate.
  - destruct (code (complete_cleaning uuid4 now sess d s g).1.2 =? 200)
      eqn:E.
    + apply Z.eqb_eq in E.
      apply staff_complete_cleaning_success in E
        as (u & i & t & -> & Hf & Ha).
      rewrite (staff_complete_cleaning_accepts _ _ _ _ _ _ i t) by done.
      right. eexists _, _, _. split; [reflexivity|]. right.
      cbn [update_type new_status new_score].
      pose proof (randint_range 85 100 g ltac:(lia)). done.
    + left. revert E. unfold complete_cleaning, rand_bind, rand_ret.
      repeat match goal with
             | |- context [match ?x with _ => _ end] => destruct x
             end; cbn [fst snd code]; try reflexivity.
      discriminate.
Qed.
End StaffRequests.



(** X14.  In every run of the staff service the ledger only grows at its
    end, the registry keeps its length, and every entry written to the
    ledger is handed to the sender, once and in the same order: if the two
    lists agree before the run they agree after it. *)
Theorem staff_ledger_append_only trace s :
  Staff.staff_updates s
    `prefix_of` Staff.staff_updates (StaffSystem.run trace s)
  /\ length (Staff.toilets_data (StaffSystem.run trace s))
     = length (Staff.toilets_data s)
  /\ (Staff.sent_to_public s = Staff.staff_updates s ->
      Staff.sent_to_public (StaffSystem.run trace s)
      = Staff.staff_updates (StaffSystem.run trace s)).
Proof.
  revert s. induction trace as [|[[uuid4 now] a] trace IH]; intros s.
  - by repeat split.
  - cbn [StaffSystem.run].
    destruct (IH (StaffSystem.step uuid4 now a s)) as (Hp & Hl & Hs).
    destruct (staff_step_shape uuid4 now a s)
      as [E | (i & t' & e & E & _)]; rewrite E in *.
    + by repeat split.
    + cbn [Staff.staff_updates Staff.toilets_data Staff.sent_to_public]
        in *.
      split; [|split].
      * etransitivity; [|exact Hp]. by apply prefix_app_r.
      * by rewrite Hl, length_insert.
      * intros Heq. apply Hs. by rewrite Heq.
Qed.

Lemma staff_ledger_append_only_witness :
  let s := StaffSystem.example_state 0 in
  let trace :=
    [("u1", 1,
      StaffSystem.StartCleaning (Some StaffSystem.cleaner)
        (Some "toilet_001"));
     ("u2", 2,
      StaffSystem.CompleteCleaning (Some StaffSystem.cleaner)
        (Some "toilet_001") (EnhancedSystem.constant_rng 7))] in
  length (Staff.staff_updates (StaffSystem.run trace s)) = 2%nat
  /\ Staff.sent_to_public (StaffSystem.run trace s)
     = Staff.staff_updates (StaffSystem.run trace s).
Proof.
  intros s trace. split; [reflexivity|].
  apply (staff_ledger_append_only trace s). reflexivity.
Defined.

(** X15.  Every ledger entry the staff service writes is well formed: a
    cleaning_started entry leads into "Cleaning in Progress", a
    cleaning_completed entry leads to Clean with a score in [85, 100]; a
    ledger of such entries stays one through every run. *)
Theorem staff_ledger_entries_ok trace s :
  Forall StaffSystem.entry_ok (Staff.staff_updates s) ->
  Forall StaffSystem.entry_ok
    (Staff.staff_updates (StaffSystem.run trace s)).
Proof.
  revert s. induction trace as [|[[uuid4 now] a] trace IH]; intros s Hs.
  - exact Hs.
  - cbn [StaffSystem.run]. apply IH.
    destruct (staff_step_shape uuid4 now a s)
      as [E | (i & t' & e & E & He)]; rewrite E; [exact Hs|].
    cbn [Staff.staff_updates]. apply Forall_app. split; [exact Hs|].
    by constructor.
Qed.

Lemma staff_ledger_entries_ok_witness :
  let trace :=
    [("u1", 1,
      StaffSystem.StartCleaning (Some StaffSystem.cleaner)
        (Some "toilet_001"));
     ("u2", 2,
      StaffSystem.CompleteCleaning (Some StaffSystem.cleaner)
        (Some "toilet_001") (EnhancedSystem.constant_rng 7))] in
  Forall StaffSystem.entry_ok
    (Staff.staff_updates
       (StaffSystem.run trace (StaffSystem.example_state 0))).
Proof.
  intros trace.
  apply (staff_ledger_entries_ok trace (StaffSystem.example_state 0)).
  constructor.
Defined.

(** X16.  An accepted complete-cleaning of the staff service needs no
    start before it: whatever the toilet's status, the toilet becomes Clean
    with a score in [85, 100], stamped as cleaned now, and the appended
    cleaning_completed entry carries the status the toilet really had. *)
Theorem staff_complete_cleaning_effects uuid4 now sess d s g :
  let r := (Staff.complete_cleaning uuid4 now sess d s g).1 in
  code r.2 = 200 ->
  exists i t t' e,
    Staff.find_toilet d (Staff.toilets_data s) = Some (i, t)
    /\ Staff.toilets_data r.1 = <[i := t']> (Staff.toilets_data s)
    /\ Staff.status t' = "Clean"
    /\ 85 <= Staff.hygiene_score t' <= 100
    /\ Staff.last_cleaned t' = now
    /\ Staff.cleaner_assigned t' = Staff.cleaner_assigned t
    /\ Staff.staff_updates r.1 = (Staff.staff_updates s ++ [e])%list
    /\ Staff.update_type e = "cleaning_completed"
    /\ Staff.previous_status e = Staff.status t
    /\ Staff.new_status e = "Clean"
    /\ Staff.new_score e = Staff.hygiene_score t'
    /\ Staff.timestamp e = now.
Proof.
  intros r H. subst r.
  apply staff_complete_cleaning_success in H as (u & i & t & -> & Hf & Ha).
  rewrite (staff_complete_cleaning_accepts _ _ _ _ _ _ i t) by done.
  eexists i, t, _, _.
  cbn [fst Staff.toilets_data Staff.staff_updates].
  split; [exact Hf|]. split; [reflexivity|].
  pose proof (randint_range 85 100 g ltac:(lia)). done.
Qed.

Lemma staff_complete_cleaning_effects_witness :
  let s := StaffSystem.example_state 0 in
  let r :=
    (Staff.complete_cleaning "u1" 9 (Some StaffSystem.cleaner)
       (Some "toilet_001") s (EnhancedSystem.constant_rng 7)).1 in
  exists i t t' e,
    Staff.find_toilet (Some "toilet_001") (Staff.toilets_data s)
      = Some (i, t)
    /\ Staff.toilets_data r.1 = <[i := t']> (Staff.toilets_data s)
    /\ Staff.status t' = "Clean"
    /\ 85 <= Staff.hygiene_score t' <= 100
    /\ Staff.last_cleaned t' = 9
    /\ Staff.cleaner_assigned t' = Staff.cleaner_assigned t
    /\ Staff.staff_updates r.1 = (Staff.staff_updates s ++ [e])%list
    /\ Staff.update_type e = "cleaning_completed"
    /\ Staff.previous_status e = Staff.status t
    /\ Staff.new_status e = "Clean"
    /\ Staff.new_score e = Staff.hygiene_score t'
    /\ Staff.timestamp e = 9.
Proof.
  intros s r.
  apply (staff_complete_cleaning_effects "u1" 9 (Some StaffSystem.cleaner)
           (Some "toilet_001") s (EnhancedSystem.constant_rng 7)).
  reflexivity.
Defined.

(** X17.  In the staff service an accepted start-cleaning followed by a
    complete-cleaning of the same user on the same toilet is accepted too,
    and the two appended entries chain: the first leads from the toilet's
    old status and score into "Cleaning in Progress", the second from
    "Cleaning in Progress" to Clean. *)
Theorem staff_start_then_complete uuid4 now sess d s uuid4' now' g :
  let r1 := Staff.start_cleaning uuid4 now sess d s in
  let r2 := (Staff.complete_cleaning uuid4' now' sess d r1.1 g).1 in
  code r1.2 = 200 ->
  code r2.2 = 200
  /\ exists i t e1 e2,
       Staff.find_toilet d (Staff.toilets_data s) = Some (i, t)
       /\ Staff.staff_updates r2.1
          = (Staff.staff_updates s ++ [e1; e2])%list
       /\ Staff.update_type e1 = "cleaning_started"
       /\ Staff.previous_status e1 = Staff.status t
       /\ Staff.new_score e1 = Staff.hygiene_score t
       /\ Staff.new_status e1 = Staff.previous_status e2
       /\ Staff.previous_status e2 = "Cleaning in Progress"
       /\ Staff.update_type e2 = "cleaning_completed"
       /\ Staff.new_status e2 = "Clean"
       /\ Staff.toilet_id e1 = Staff.toilet_id e2
       /\ Staff.status <$> Staff.toilets_data r2.1 !! i = Some "Clean".
Proof.
  intros r1 r2 H. subst r2 r1.
  apply staff_start_cleaning_success in H as (u & i & t & -> & Hf & Ha).
  rewrite (staff_start_cleaning_accepts _ _ _ _ _ i t) by done.
  cbn [fst].
  pose proof (staff_find_toilet_insert d _ i t
                (Staff.set_status "Cleaning in Progress" t) Hf eq_refl)
    as Hf'.
  erewrite staff_complete_cleaning_accepts;
    [|cbn [Staff.toilets_data]; exact Hf' | exact Ha].
  cbn [fst snd code Staff.staff_updates Staff.toilets_data].
  split; [reflexivity|]. eexists i, t, _, _.
  split; [exact Hf|]. split; [by rewrite <- app_assoc|].
  repeat split; try reflexivity.
  rewrite list_lookup_insert_eq; [reflexivity|].
  rewrite length_insert. apply list_find_Some in Hf as (Hi & _).
  by eapply lookup_lt_Some.
Qed.

Lemma staff_start_then_complete_witness :
  let s := StaffSystem.example_state 0 in
  let r1 :=
    Staff.start_cleaning "u1" 1 (Some StaffSystem.cleaner)
      (Some "toilet_001") s in
  let r2 :=
    (Staff.complete_cleaning "u2" 2 (Some StaffSystem.cleaner)
       (Some "toilet_001") r1.1 (EnhancedSystem.constant_rng 7)).1 in
  code r2.2 = 200
  /\ exists i t e1 e2,
       Staff.find_toilet (Some "toilet_001") (Staff.toilets_data s)
         = Some (i, t)
       /\ Staff.staff_updates r2.1
          = (Staff.staff_updates s ++ [e1; e2])%list
       /\ Staff.update_type e1 = "cleaning_started"
       /\ Staff.previous_status e1 = Staff.status t
       /\ Staff.new_score e1 = Staff.hygiene_score t
       /\ Staff.new_status e1 = Staff.previous_status e2
       /\ Staff.previous_status e2 = "Cleaning in Progress"
       /\ Staff.update_type e2 = "cleaning_completed"
       /\ Staff.new_status e2 = "Clean"
       /\ Staff.toilet_id e1 = Staff.toilet_id e2
       /\ Staff.status <$> Staff.toilets_data r2.1 !! i = Some "Clean".
Proof.
  intros s r1 r2.
  apply (staff_start_then_complete "u1" 1 (Some StaffSystem.cleaner)
           (Some "toilet_001") s "u2" 2 (EnhancedSystem.constant_rng 7)).
  reflexivity.
Defined.

(** ** The feeds of the staff service *)

Lemma minutes_quot_bound (d : Z) :
  d <= 30 * microseconds_per_minute ->
  Z.quot d microseconds_per_minute <= 30
  /\ (0 <= d -> 0 <= Z.quot d microseconds_per_minute).
Proof.
  intros Hd. unfold microseconds_per_minute in *. split.
  - replace 30 with (Z.quot (30 * (60 * 1000000)) (60 * 1000000))
      by reflexivity.
    apply Z.quot_le_mono; lia.
  - intros H0. apply Z.quot_pos; lia.
Qed.

Lemma time_ago_recent (d : Z) :
  d <= 30 * microseconds_per_minute ->
  Staff.time_ago d = Staff.minutes_ago (Z.quot d microseconds_per_minute).
Proof.
  intros Hd. unfold Staff.time_ago, minutes_lt.
  destruct (Z.ltb_spec d (60 * microseconds_per_minute)); [reflexivity|].
  unfold microseconds_per_minute in *. lia.
Qed.

(** X18.  Every entry of the staff feed is labelled in minutes, with at
    most 30 of them, and a non-negative number when its timestamp is not
    in the future: the "hours ago" label is never produced. *)
Theorem staff_feed_labels_in_minutes now sess s :
  Forall (fun v =>
            exists n,
              v.2 = Staff.minutes_ago n /\ n <= 30
              /\ (Staff.timestamp v.1 <= now -> 0 <= n))
    (Staff.get_staff_updates now sess s).2.
Proof.
  unfold Staff.get_staff_updates. destruct sess as [u|]; [|constructor].
  cbn [snd]. apply Forall_forall. intros v Hv.
  apply list_elem_of_omap in Hv as (x & Hx & Hf).
  unfold minutes_le in Hf.
  destruct (Z.leb_spec (now - Staff.timestamp x)
              (30 * microseconds_per_minute)) as [Hle|]; [|discriminate].
  injection Hf as <-. cbn [fst snd].
  exists (Z.quot (now - Staff.timestamp x) microseconds_per_minute).
  destruct (minutes_quot_bound _ Hle) as [H1 H2].
  split; [by apply time_ago_recent|]. split; [exact H1|].
  intros Hts. apply H2. lia.
Qed.

(** X19.  The sync endpoint of the staff service answers with at most 10
    entries, none older than 60 minutes, taken from the last 10 of the
    ledger in ledger order. *)
Theorem sync_with_public_window now s :
  (length (Staff.sync_with_public now s) <= 10)%nat
  /\ Forall (fun u =>
               now - Staff.timestamp u <= 60 * microseconds_per_minute)
       (Staff.sync_with_public now s)
  /\ Staff.sync_with_public now s
       `sublist_of` lastn 10 (Staff.staff_updates s)
  /\ lastn 10 (Staff.staff_updates s) `suffix_of` Staff.staff_updates s.
Proof.
  unfold Staff.sync_with_public. split; [|split; [|split]].
  - etransitivity; [apply length_filter | apply length_lastn].
  - apply Forall_forall. intros u Hu.
    apply list_elem_of_filter in Hu as [Hu _].
    unfold minutes_le in Hu. apply Is_true_true in Hu.
    by apply Z.leb_le in Hu.
  - apply sublist_filter.
  - apply suffix_drop.
Qed.

(** ** Urgency and priority of the staff service *)

(** X20.  Under the staff service's scoring only a toilet whose status is
    Dirty or "Needs Cleaning" can reach high priority (a Moderate toilet
    scores at most 60, any other at most 50), and a Dirty toilet with a
    hygiene score below 50 always has high priority. *)
Theorem staff_high_priority_needs_dirty now (t : Staff.toilet) :
  (Staff.get_priority_level (Staff.calculate_urgency_score now t) = high ->
   Staff.status t = "Dirty" \/ Staff.status t = "Needs Cleaning")
  /\ (Staff.status t = "Dirty" -> Staff.hygiene_score t < 50 ->
      Staff.get_priority_level (Staff.calculate_urgency_score now t) = high).
Proof.
  unfold Staff.get_priority_level, Staff.calculate_urgency_score, hours_gt.
  destruct (String.eqb_spec (Staff.status t) "Dirty") as [Hd|Hd];
    [|destruct (String.eqb_spec (Staff.status t) "Needs Cleaning")
        as [Hn|Hn];
      [|destruct (String.eqb_spec (Staff.status t) "Moderate")]];
    repeat match goal with
           | |- context [?a <? ?b] => destruct (Z.ltb_spec a b)
           end;
    repeat match goal with
           | |- context [?a <=? ?b] => destruct (Z.leb_spec a b)
           end;
    split; intros; try tauto; try discriminate; try lia; try congruence.
Qed.

Lemma staff_high_priority_needs_dirty_witness :
  let t :=
    Staff.Toilet "toilet_001" "Central Park Public Toilet" "Central Park"
      "Dirty" 25 0 None None in
  Staff.get_priority_level (Staff.calculate_urgency_score 0 t) = high.
Proof.
  intros t. apply (proj2 (staff_high_priority_needs_dirty 0 t)).
  - reflexivity.
  - vm_compute. reflexivity.
Defined.



(** ** Propagation from the staff service to the public service *)

Section PropagationFacts.
Import Public Propagation.
Variable isoformat : datetime -> string.
Variable fromisoformat : string -> option datetime.

Lemma update_payload_lookups (u : Staff.update) :
  let data := update_payload isoformat u in
  data !! "toilet_id" = Some (JStr (Staff.toilet_id u))
  /\ data !! "toilet_name" = Some (JStr (Staff.toilet_name u))
  /\ data !! "type" = Some (JStr (Staff.update_type u))
  /\ data !! "previous_status" = Some (JStr (Staff.previous_status u))
  /\ data !! "new_status" = Some (JStr (Staff.new_status u))
  /\ data !! "new_score" = Some (JNum (Staff.new_score u))
  /\ data !! "cleaner_name" = Some (JStr (Staff.cleaner_name u))
  /\ data !! "timestamp" = Some (JStr (isoformat (Staff.timestamp u)))
  /\ data !! "icon" = Some (JStr (Staff.update_icon u)).
Proof. unfold update_payload. repeat split; by simplify_map_eq. Qed.

(** The update either path builds from the payload of a staff entry. *)
Lemma synced_update_payload uuid4 now (u : Staff.update) :
  fromisoformat (isoformat (Staff.timestamp u)) = Some (Staff.timestamp u) ->
  synced_update fromisoformat uuid4 now (update_payload isoformat u)
  = Some (mirror uuid4 u).
Proof.
  intros Hrt. unfold synced_update.
  destruct (update_payload_lookups u)
    as (-> & -> & -> & -> & -> & -> & -> & -> & ->).
  cbn [parse_timestamp]. rewrite Hrt. reflexivity.
Qed.

Lemma receive_update_payload uuid4 now (u : Staff.update) s :
  fromisoformat (isoformat (Staff.timestamp u)) = Some (Staff.timestamp u) ->
  receive_update fromisoformat uuid4 now (update_payload isoformat u) s
  = (State (real_time_updates s ++ [mirror uuid4 u]),
     Response 200 "Update received successfully").
Proof.
  intros Hrt. unfold receive_update, has_field.
  cbn [forallb required_fields].
  destruct (update_payload_lookups u)
    as (-> & -> & -> & -> & -> & -> & -> & -> & ->).
  cbn [andb negb parse_timestamp]. rewrite Hrt. reflexivity.
Qed.

Lemma append_synced_payloads uuid4 now n (l : list Staff.update) ledger :
  Forall (fun u =>
            fromisoformat (isoformat (Staff.timestamp u))
            = Some (Staff.timestamp u)) l ->
  append_synced fromisoformat uuid4 now n (map (update_payload isoformat) l)
    ledger
  = (ledger ++ imap (fun k u => mirror (uuid4 (n + k)%nat) u) l)%list.
Proof.
  intros Hl. revert n ledger.
  induction Hl as [|u l Hu Hl IH]; intros n ledger.
  - cbn. by rewrite app_nil_r.
  - cbn [map append_synced]. rewrite synced_update_payload by exact Hu.
    rewrite IH, imap_cons, <- app_assoc. cbn [app].
    rewrite Nat.add_0_r. do 2 f_equal.
    apply imap_ext. intros k x _. cbn. f_equal. f_equal. lia.
Qed.

Lemma append_synced_prefix uuid4 now n l ledger :
  ledger `prefix_of` append_synced fromisoformat uuid4 now n l ledger
  /\ (length (append_synced fromisoformat uuid4 now n l ledger)
      <= length ledger + length l)%nat.
Proof.
  revert n ledger. induction l as [|d l IH]; intros n ledger.
  - cbn. split; [reflexivity|lia].
  - cbn [append_synced length].
    destruct (synced_update fromisoformat (uuid4 n) now d) as [x|].
    + destruct (IH (S n) (ledger ++ [x])%list) as [Hp Hlen].
      split.
      * etransitivity; [|exact Hp]. by apply prefix_app_r.
      * rewrite length_app in Hlen. cbn [length] in Hlen. lia.
    + split; [reflexivity|lia].
Qed.
End PropagationFacts.

(** X22.  Push round trip: the payload the staff service posts for a
    ledger entry is accepted by the webhook of the public service, which
    records one update carrying the entry's toilet, type, statuses, score,
    cleaner, icon and timestamp, provided the ISO text of the timestamp
    parses back to it. *)
Theorem push_round_trip isoformat fromisoformat uuid4 now
    (u : Staff.update) s :
  fromisoformat (isoformat (Staff.timestamp u)) = Some (Staff.timestamp u) ->
  Public.receive_update fromisoformat uuid4 now
    (Propagation.update_payload isoformat u) s
  = (Public.State
       (Public.real_time_updates s ++ [Propagation.mirror uuid4 u]),
     Response 200 "Update received successfully").
Proof. apply receive_update_payload. Qed.

Lemma push_round_trip_witness :
  let u :=
    Staff.Update "s1" "toilet_001" "Central Park Public Toilet"
      "cleaning_started" "Dirty" "Cleaning in Progress" 25 "Cleaning Staff"
      10000000 "🚻" in
  Public.receive_update Public.sample_fromisoformat "p1" 11000000
    (Propagation.update_payload Propagation.sample_isoformat u)
    (Public.State [])
  = (Public.State ([] ++ [Propagation.mirror "p1" u]),
     Response 200 "Update received successfully").
Proof.
  intros u.
  apply (push_round_trip Propagation.sample_isoformat
           Public.sample_fromisoformat "p1" 11000000 u (Public.State [])).
  reflexivity.
Defined.

(** X23.  The webhook keeps no record of what it has seen: a payload that
    was accepted once is accepted again, and each delivery appends one
    more update to the ledger, whose older entries stay in place. *)
Theorem webhook_records_every_delivery fromisoformat uuid4 now uuid4' now'
    (data : gmap string Public.jval) s :
  let r1 := Public.receive_update fromisoformat uuid4 now data s in
  let r2 := Public.receive_update fromisoformat uuid4' now' data r1.1 in
  code r1.2 = 200 ->
  code r2.2 = 200
  /\ length (Public.real_time_updates r2.1)
     = S (S (length (Public.real_time_updates s)))
  /\ Public.real_time_updates s `prefix_of` Public.real_time_updates r2.1.
Proof.
  intros r1 r2 H.
  destruct (receive_update_cases fromisoformat uuid4 now data s)
    as [[E Hr] | [(E & _ & Hr) | (E & Hparse & u & Hr & _)]];
    fold r1 in Hr; rewrite Hr in H; cbn [snd code] in H;
    try discriminate.
  destruct (receive_update_cases fromisoformat uuid4' now' data r1.1)
    as [[E' _] | [(_ & (str & Hts & Hnone) & _)
                 | (_ & _ & u' & Hr' & _)]].
  - congruence.
  - destruct (Hparse str Hts). congruence.
  - fold r2 in Hr'. rewrite Hr', Hr.
    cbn [fst snd code Public.real_time_updates].
    split; [reflexivity|]. split.
    + rewrite !length_app. cbn [length]. lia.
    + rewrite <- app_assoc. by apply prefix_app_r.
Qed.

Lemma webhook_records_every_delivery_witness :
  let r1 :=
    Public.receive_update Public.sample_fromisoformat "p1" 0
      Public.sample_payload (Public.State []) in
  let r2 :=
    Public.receive_update Public.sample_fromisoformat "p2" 1
      Public.sample_payload r1.1 in
  code r2.2 = 200
  /\ length (Public.real_time_updates r2.1) = 2%nat
  /\ [] `prefix_of` Public.real_time_updates r2.1.
Proof.
  intros r1 r2.
  apply (webhook_records_every_delivery Public.sample_fromisoformat "p1" 0
           "p2" 1 Public.sample_payload (Public.State [])).
  vm_compute. reflexivity.
Defined.

(** X24.  Pull reconciliation: when the public service pulls the sync
    answer of the staff service, it appends one update per entry of the
    answer, in the answer's order, each carrying the values of its staff
    entry, provided the ISO texts of the timestamps parse back; nothing is
    compared with what the ledger already holds. *)
Theorem pull_appends_peer_window isoformat fromisoformat uuid4 now
    now_staff s_staff s :
  Forall (fun u =>
            fromisoformat (isoformat (Staff.timestamp u))
            = Some (Staff.timestamp u))
    (Staff.sync_with_public now_staff s_staff) ->
  Public.real_time_updates
    (Public.sync_with_staff_interface fromisoformat uuid4 now
       (Some (Propagation.sync_answer isoformat now_staff s_staff)) s)
  = (Public.real_time_updates s
       ++ imap (fun k u => Propagation.mirror (uuid4 k) u)
            (Staff.sync_with_public now_staff s_staff))%list.
Proof.
  intros Hrt.
  unfold Public.sync_with_staff_interface, Propagation.sync_answer.
  cbn [Public.has_updates Public.updates].
  destruct (Staff.sync_with_public now_staff s_staff) as [|u l] eqn:E.
  - cbn. by rewrite app_nil_r.
  - cbn [length Nat.ltb Nat.leb Public.real_time_updates].
    by rewrite (append_synced_payloads isoformat fromisoformat uuid4 now 0
                  (u :: l) _ Hrt).
Qed.

Lemma pull_appends_peer_window_witness :
  let u :=
    Staff.Update "s1" "toilet_001" "Central Park Public Toilet"
      "cleaning_started" "Dirty" "Cleaning in Progress" 25 "Cleaning Staff"
      10000000 "🚻" in
  let s_staff := Staff.State (StaffSystem.example_toilets 0) [u] [u] in
  let pushed :=
    (Public.receive_update Public.sample_fromisoformat "p1" 11000000
       (Propagation.update_payload Propagation.sample_isoformat u)
       (Public.State [])).1 in
  Public.real_time_updates
    (Public.sync_with_staff_interface Public.sample_fromisoformat
       (fun _ => "p2") 12000000
       (Some (Propagation.sync_answer Propagation.sample_isoformat 12000000
                s_staff)) pushed)
  = (Public.real_time_updates pushed
       ++ imap (fun k u => Propagation.mirror "p2" u)
            (Staff.sync_with_public 12000000 s_staff))%list.
Proof.
  intros u s_staff pushed.
  apply (pull_appends_peer_window Propagation.sample_isoformat
           Public.sample_fromisoformat (fun _ => "p2") 12000000 12000000
           s_staff pushed).
  vm_compute. repeat constructor.
Defined.

(** X25.  A pull never removes or rewrites an entry of the public ledger
    and adds at most one per entry of the answer; a failed request or an
    answer without updates leaves the ledger as it is. *)
Theorem pull_keeps_ledger fromisoformat uuid4 now answer s :
  let s' :=
    Public.sync_with_staff_interface fromisoformat uuid4 now answer s in
  Public.real_time_updates s `prefix_of` Public.real_time_updates s'
  /\ (length (Public.real_time_updates s')
      <= length (Public.real_time_updates s)
         + from_option (fun a => length (Public.updates a)) 0%nat answer)%nat
  /\ (from_option Public.has_updates false answer = false -> s' = s).
Proof.
  intros s'. subst s'. unfold Public.sync_with_staff_interface.
  destruct answer as [a|]; cbn [from_option].
  - destruct (Public.has_updates a).
    + cbn [Public.real_time_updates].
      destruct (append_synced_prefix fromisoformat uuid4 now 0
                  (Public.updates a) (Public.real_time_updates s))
        as [Hp Hl].
      split; [exact Hp|]. split; [exact Hl|]. discriminate.
    + split; [reflexivity|]. split; [lia|]. reflexivity.
  - split; [reflexivity|]. split; [lia|]. reflexivity.
Qed.

(** ** The feed of the public service *)

(** X26.  Without a bearer token the feed of the public service answers
    401 with no entries; otherwise it returns at most 20 entries, each at
    most 30 minutes old and labelled in minutes, never in hours. *)
Theorem public_feed_bounded now token s :
  (Public.token_ok token = false ->
   Public.get_updates now token s = (Response 401 "No token provided", []))
  /\ (length (Public.get_updates now token s).2 <= 20)%nat
  /\ Forall (fun v =>
               now - Public.timestamp v.1 <= 30 * microseconds_per_minute
               /\ v.1 ∈ lastn 20 (Public.real_time_updates s)
               /\ exists n, v.2 = Staff.minutes_ago n /\ n <= 30)
       (Public.get_updates now token s).2.
Proof.
  unfold Public.get_updates. split; [by intros ->|].
  destruct (Public.token_ok token); cbn [negb snd].
  - split.
    + etransitivity; [apply length_omap_le | apply length_lastn].
    + apply Forall_forall. intros v Hv.
      apply list_elem_of_omap in Hv as (x & Hx & Hf).
      unfold minutes_le in Hf.
      destruct (Z.leb_spec (now - Public.timestamp x)
                  (30 * microseconds_per_minute)) as [Hle|]; [|discriminate].
      injection Hf as <-. cbn [fst snd].
      split; [exact Hle|]. split; [exact Hx|].
      exists (Z.quot (now - Public.timestamp x) microseconds_per_minute).
      split; [by apply time_ago_recent|].
      by apply minutes_quot_bound.
  - split; [simpl; lia | constructor].
Qed.



(** ** Tasks of the staff service *)



(** ** Invariants of the enhanced service *)

Section EnhancedInvariants.
Import Enhanced EnhancedSystem.

Lemma insert_keeps_Forall {A : Type} (P : A -> Prop) (l : list A) i x :
  Forall P l -> P x -> Forall P (<[i := x]> l).
Proof. apply Forall_insert. Qed.

Lemma step_keeps_status_shape uuid4 now a s :
  Forall status_shape (toilets_data s) ->
  Forall status_shape (toilets_data (step uuid4 now a s)).
Proof.
  intros Hs. destruct a as [g | sess d | k g | sess tid data]; cbn [step].
  - destruct (tick_cases uuid4 now s g)
      as [[_ E] | [(Ht & _) | (i & t & t' & e & Hi & E & Ht & _)]].
    + by rewrite E.
    + by rewrite Ht.
    + rewrite Ht. apply Forall_insert; [exact Hs|].
      destruct (simulate_toilet_cases uuid4 now t
                  (choice_index (length (toilets_data s)) g).2)
        as [E' | (t2 & e2 & E' & Hedge & _)];
        rewrite E in E'; [discriminate|].
      injection E' as <- <-. unfold simulator_edge in Hedge.
      unfold status_shape.
      repeat (apply elem_of_cons in Hedge as [[= _ Hst]|Hedge];
              [rewrite Hst; split; [reflexivity|discriminate]|]).
      by apply elem_of_nil in Hedge.
  - destruct (code (start_cleaning uuid4 now sess d s).2 =? 200) eqn:E.
    + apply Z.eqb_eq in E.
      apply start_cleaning_success in E
        as (email & tid & i & t & He & Hr & -> & Hne & Hf & Ha).
      rewrite (start_cleaning_accepts _ _ _ email _ _ i t) by done.
      cbn [fst toilets_data]. apply Forall_insert; [exact Hs|].
      by split.
    + apply Z.eqb_neq in E.
      by rewrite (proj1 (proj2 (enhanced_rejections uuid4 now
                                  sess s) d E)).
  - unfold complete_cleaning, rand_bind, rand_ret.
    destruct (completion_threads s !! k) as [c|]; [|exact Hs].
    destruct (toilets_data s !! c_toilet c) as [t|]; [|exact Hs].
    cbn [fst toilets_data]. apply Forall_insert; [exact Hs|].
    split; [reflexivity|discriminate].
  - destruct (code (update_toilet_status uuid4 now sess tid data s).2 =? 200)
      eqn:E.
    + apply Z.eqb_eq in E.
      apply update_toilet_status_success in E
        as (email & new_status & i & t & He & Hr & Hd & Hin & Hf).
      rewrite (update_toilet_status_accepts _ _ _ email _ _ new_status _ i t)
        by done.
      cbn [fst toilets_data]. apply Forall_insert; [exact Hs|].
      unfold status_shape. cbn [status set_status set_hygiene_score
        set_last_cleaned set_last_updated set_cleaner_assigned].
      unfold str_in in *. cbn [existsb] in *.
      destruct (String.eqb_spec new_status "Clean") as [->|];
        [split; [reflexivity|discriminate]|].
      destruct (String.eqb_spec new_status "Moderate") as [->|];
        [split; [reflexivity|discriminate]|].
      destruct (String.eqb_spec new_status "Dirty") as [->|];
        [split; [reflexivity|discriminate]|].
      discriminate.
    + apply Z.eqb_neq in E.
      by rewrite (proj1 (proj1 (enhanced_rejections uuid4 now
                                  sess s) tid data E)).
Qed.

Lemma step_keeps_assignment uuid4 now a s :
  is_status_update a = false ->
  cleaner_assigned <$> toilets_data (step uuid4 now a s)
  = cleaner_assigned <$> toilets_data s.
Proof.
  intros Ha. destruct a as [g | sess d | k g | sess tid data];
    [| | |discriminate]; cbn [step].
  - destruct (tick_cases uuid4 now s g)
      as [[_ Hs] | [(Ht & _) | (i & t & t' & e & Hi & E & Ht & _)]].
    + by rewrite Hs.
    + by rewrite Ht.
    + rewrite Ht. apply (fmap_insert_same _ _ _ t); [exact Hi|].
      destruct (simulate_toilet_cases uuid4 now t
                  (choice_index (length (toilets_data s)) g).2)
        as [E' | (t2 & e2 & E' & _ & _ & Hca & _)];
        rewrite E in E'; [discriminate|].
      by injection E' as <- <-.
  - unfold start_cleaning.
    repeat match goal with
           | |- context [match ?x with _ => _ end] => destruct x eqn:?
           end; try reflexivity.
    cbn [fst toilets_data].
    match goal with
    | H : find_toilet _ _ = Some _ |- _ =>
        apply list_find_Some in H as (Hi & _ & _)
    end.
    by eapply fmap_insert_same.
  - unfold complete_cleaning, rand_bind, rand_ret.
    destruct (completion_threads s !! k) as [c|]; [|reflexivity].
    destruct (toilets_data s !! c_toilet c) as [t|] eqn:Hi; [|reflexivity].
    cbn [fst toilets_data]. by eapply fmap_insert_same.
Qed.
End EnhancedInvariants.

(** X29.  In every run of the enhanced service that starts from toilets
    with status Clean, Moderate, Dirty or "In Progress", where those being
    cleaned have score 50, every toilet keeps one of these four statuses,
    and a toilet that is being cleaned always shows score 50. *)
Theorem cleaning_shows_score_50 trace s :
  Forall EnhancedSystem.status_shape (Enhanced.toilets_data s) ->
  Forall EnhancedSystem.status_shape
    (Enhanced.toilets_data (EnhancedSystem.run trace s)).
Proof.
  revert s. induction trace as [|[[uuid4 now] a] trace IH]; intros s Hs.
  - exact Hs.
  - cbn [EnhancedSystem.run]. apply IH. by apply step_keeps_status_shape.
Qed.

Lemma cleaning_shows_score_50_witness :
  let trace :=
    [("u1", 1,
      EnhancedSystem.StartCleaning EnhancedSystem.cleaner_session
        (Some "toilet_001"));
     ("u2", 2, EnhancedSystem.Tick (EnhancedSystem.constant_rng 0))] in
  Forall EnhancedSystem.status_shape
    (Enhanced.toilets_data
       (EnhancedSystem.run trace (EnhancedSystem.initial_state 0))).
Proof.
  intros trace.
  apply (cleaning_shows_score_50 trace (EnhancedSystem.initial_state 0)).
  repeat (constructor; [split; [reflexivity|discriminate]|]).
  constructor.
Defined.

(** X30.  Only the direct status update reassigns a toilet: an iteration
    of the simulator, a start-cleaning request and the wake-up of a
    completion leave the assigned cleaner of every toilet as it was. *)
Theorem only_status_update_reassigns uuid4 now a s :
  EnhancedSystem.is_status_update a = false ->
  Enhanced.cleaner_assigned
    <$> Enhanced.toilets_data (EnhancedSystem.step uuid4 now a s)
  = Enhanced.cleaner_assigned <$> Enhanced.toilets_data s.
Proof. apply step_keeps_assignment. Qed.

Lemma only_status_update_reassigns_witness :
  Enhanced.cleaner_assigned
    <$> Enhanced.toilets_data
          (EnhancedSystem.step "u1" 1
             (EnhancedSystem.StartCleaning EnhancedSystem.cleaner_session
                (Some "toilet_001"))
             (EnhancedSystem.initial_state 0))
  = Enhanced.cleaner_assigned
      <$> Enhanced.toilets_data (EnhancedSystem.initial_state 0).
Proof.
  apply (only_status_update_reassigns "u1" 1
           (EnhancedSystem.StartCleaning EnhancedSystem.cleaner_session
              (Some "toilet_001"))
           (EnhancedSystem.initial_state 0)).
  reflexivity.
Defined.
